(** * The Meeting BaaS tool server ([src/api/server.ts])

    A shallow embedding of the fifteen tools that [src/api/server.ts]
    registers on the MCP server, and of the contract their handlers keep:
    one backend call inside a [try], a text envelope on success, a fixed
    failure sentence with [isError: true] in the [catch], which also
    catches what printing the resolved value throws.

    Layout:
    - [Js]        the JavaScript values and built-ins the handlers use;
    - [Zod]       the zod types of the input shapes and what they parse to;
    - [Baas]      the boundary of the backend client ([@meeting-baas/sdk]);
    - [Effects]   the monad of an [async] handler body;
    - [Server]    the catalogue and the handlers, in source order;
    - [Dispatch]  lookup, validation and invocation, which the MCP server
                  does and the spec describes;
    - the vocabulary of the statements, then the statements. *)

From Stdlib Require Import ZArith Ascii.
From stdpp Require Import base option list strings pretty gmap.

Local Open Scope Z_scope.

(* ===================================================================== *)
(** ** JavaScript values and built-ins *)
(* ===================================================================== *)

Module Js.

(** A number value. A finite number other than zero is held the way
    [Number::toString] reads it: [digits] is the integer [s] whose [k]
    decimal digits are the digits of the shortest decimal that reads back
    as the number, and [exponent] is the [n] with
    [|x| = s * 10 ^ (n - k)]; so [Finite false 15 1] is 1.5 and
    [Finite false 18446744073709552 20] is 2^64. *)
Inductive Number : Type :=
| NaN
| Infinity (negative : bool)
| Zero (negative : bool)
| Finite (negative : bool) (digits : positive) (exponent : Z).

(** The values a backend call may resolve to or reject with, and the
    values of an argument bag. An array or a plain object is the tree of
    its items or members, in the order JavaScript enumerates them, which is
    the order [JSON.stringify] prints them in. An object that
    contains itself is no tree: [JCyclic] stands for one. [JError] is an
    [Error] object with its [name] and [message]. *)
#[warnings="-register-all"]
Inductive Value : Type :=
| JUndefined
| JNull
| JBool (b : bool)
| JNum (x : Number)
| JBigInt (z : Z)
| JSymbol (description : option string)
| JStr (s : string)
| JArr (items : list Value)
| JObj (members : list (string * Value))
| JCyclic
| JError (name message : string).

(** How an operation completes: with a value, or by throwing one. *)
Inductive Completion (A : Type) : Type :=
| Return (a : A)
| Throw (error : Value).
Arguments Return {A} a.
Arguments Throw {A} error.

(** The [TypeError] a built-in throws. Its message is the engine's. *)
Definition TypeError (message : string) : Value := JError "TypeError" message.

Definition newline : string := String (ascii_of_nat 10) EmptyString.
Definition dquote : string := String (ascii_of_nat 34) EmptyString.

Fixpoint zeros (n : nat) : string :=
  match n with
  | O => EmptyString
  | S m => String (ascii_of_nat 48) (zeros m)
  end.

(** [Number::toString(x, 10)]. *)
Definition Number_toString (x : Number) : string :=
  match x with
  | NaN => "NaN"
  | Infinity negative => if negative then "-Infinity" else "Infinity"
  | Zero _ => "0"
  | Finite negative s n =>
      let digits := pretty (Npos s) in
      let k := Z.of_nat (String.length digits) in
      (if negative then "-" else "") +:+
      (if (-5 <=? n) && (n <=? 21) then
         if k <=? n then
           digits +:+ zeros (Z.to_nat (n - k))
         else if 0 <? n then
           String.substring 0 (Z.to_nat n) digits +:+ "." +:+
           String.substring (Z.to_nat n) (Z.to_nat (k - n)) digits
         else
           "0." +:+ zeros (Z.to_nat (- n)) +:+ digits
       else
         let exponentSign := if n <? 0 then "-" else "+" in
         let exponent := exponentSign +:+ pretty (Z.abs (n - 1)) in
         if k =? 1 then
           digits +:+ "e" +:+ exponent
         else
           String.substring 0 1 digits +:+ "." +:+
           String.substring 1 (Z.to_nat (k - 1)) digits +:+ "e" +:+ exponent)
  end.

(** [ToBoolean], the test of [c ? a : b]. *)
Definition ToBoolean (v : Value) : bool :=
  match v with
  | JUndefined | JNull => false
  | JBool b => b
  | JNum (NaN | Zero _) => false
  | JNum _ => true
  | JBigInt z => negb (z =? 0)
  | JStr s => negb (String.eqb s "")
  | JSymbol _ | JArr _ | JObj _ | JCyclic | JError _ _ => true
  end.

(** [Error.prototype.toString]. *)
Definition Error_toString (name message : string) : string :=
  if String.eqb name "" then message
  else if String.eqb message "" then name
  else name +:+ ": " +:+ message.

(** [ToString], the conversion a template literal applies to [${v}]. An
    array prints its items joined by commas, [undefined] and [null] items
    as nothing; a plain object prints as [[object Object]]; a symbol
    throws. *)
Fixpoint ToString (v : Value) : Completion string :=
  match v with
  | JUndefined => Return "undefined"
  | JNull => Return "null"
  | JBool true => Return "true"
  | JBool false => Return "false"
  | JNum x => Return (Number_toString x)
  | JBigInt z => Return (pretty z)
  | JSymbol _ => Throw (TypeError "Cannot convert a Symbol value to a string")
  | JStr s => Return s
  | JArr items =>
      match
        (fix join (l : list Value) : Completion (list string) :=
           match l with
           | [] => Return []
           | x :: rest =>
               match
                 match x with
                 | JUndefined | JNull => Return ""
                 | _ => ToString x
                 end
               with
               | Throw error => Throw error
               | Return s =>
                   match join rest with
                   | Throw error => Throw error
                   | Return ss => Return (s :: ss)
                   end
               end
           end) items
      with
      | Throw error => Throw error
      | Return ss => Return (String.concat "," ss)
      end
  | JObj _ | JCyclic => Return "[object Object]"
  | JError name message => Return (Error_toString name message)
  end.

Definition hex_digit (n : N) : ascii :=
  ascii_of_N (if (n <? 10)%N then 48 + n else 87 + n)%N.

(** One character of [QuoteJSONString]: the two-character escapes, then
    [\u00xx] for the other control characters, then the character. *)
Definition quote_char (c : ascii) : string :=
  let n := N_of_ascii c in
  if (n =? 8)%N then "\b"
  else if (n =? 9)%N then "\t"
  else if (n =? 10)%N then "\n"
  else if (n =? 12)%N then "\f"
  else if (n =? 13)%N then "\r"
  else if (n =? 34)%N then "\" +:+ dquote
  else if (n =? 92)%N then "\\"
  else if (n <? 32)%N then
    "\u00" +:+ String (hex_digit (n / 16)) (String (hex_digit (n mod 16)) EmptyString)
  else String c EmptyString.

Fixpoint quote_chars (s : string) : string :=
  match s with
  | EmptyString => EmptyString
  | String c rest => quote_char c +:+ quote_chars rest
  end.

Definition QuoteJSONString (s : string) : string :=
  dquote +:+ quote_chars s +:+ dquote.

(** The gap of [JSON.stringify(value, null, 2)]. *)
Definition gap : string := "  ".

(** [SerializeJSONProperty] with a non-empty gap: [indent] is the
    indentation of the line the value starts on. The result is the text,
    or [None] for [undefined] (a value JSON has no text for), or a thrown
    [TypeError] (a [BigInt], an object that contains itself). An array
    prints [null] for an item without text; an object leaves out a member
    without text. An [Error] object has no enumerable member. *)
Fixpoint serialize (indent : string) (v : Value) : Completion (option string) :=
  match v with
  | JUndefined | JSymbol _ => Return None
  | JNull => Return (Some "null")
  | JBool true => Return (Some "true")
  | JBool false => Return (Some "false")
  | JNum (NaN | Infinity _) => Return (Some "null")
  | JNum x => Return (Some (Number_toString x))
  | JBigInt _ => Throw (TypeError "Do not know how to serialize a BigInt")
  | JStr s => Return (Some (QuoteJSONString s))
  | JArr items =>
      let stepback := indent in
      let indent := indent +:+ gap in
      match
        (fix each (l : list Value) : Completion (list string) :=
           match l with
           | [] => Return []
           | x :: rest =>
               match serialize indent x with
               | Throw error => Throw error
               | Return printed =>
                   match each rest with
                   | Throw error => Throw error
                   | Return partial => Return (default "null" printed :: partial)
                   end
               end
           end) items
      with
      | Throw error => Throw error
      | Return [] => Return (Some "[]")
      | Return partial =>
          Return (Some ("[" +:+ newline +:+ indent
                        +:+ String.concat ("," +:+ newline +:+ indent) partial
                        +:+ newline +:+ stepback +:+ "]"))
      end
  | JObj members =>
      let stepback := indent in
      let indent := indent +:+ gap in
      match
        (fix each (l : list (string * Value)) : Completion (list string) :=
           match l with
           | [] => Return []
           | (k, x) :: rest =>
               match serialize indent x with
               | Throw error => Throw error
               | Return printed =>
                   match each rest with
                   | Throw error => Throw error
                   | Return partial =>
                       Return
                         (match printed with
                          | Some s => (QuoteJSONString k +:+ ": " +:+ s) :: partial
                          | None => partial
                          end)
                   end
               end
           end) members
      with
      | Throw error => Throw error
      | Return [] => Return (Some "{}")
      | Return partial =>
          Return (Some ("{" +:+ newline +:+ indent
                        +:+ String.concat ("," +:+ newline +:+ indent) partial
                        +:+ newline +:+ stepback +:+ "}"))
      end
  | JCyclic => Throw (TypeError "Converting circular structure to JSON")
  | JError _ _ => Return (Some "{}")
  end.

(** [JSON.stringify(value, null, 2)]. *)
Definition JSON_stringify (v : Value) : Completion (option string) := serialize "" v.

(** [${x}] for what [JSON.stringify] returned, a string or [undefined]. *)
Definition interpolate (printed : option string) : string :=
  default "undefined" printed.

End Js.
Import Js.


(* ===================================================================== *)
(** ** Input schemas *)
(* ===================================================================== *)

Module Zod.

(** The zod types that occur in the shapes given to [server.tool]:
    [z.string()], [z.number()], [z.boolean()], [z.enum([...])],
    [z.record(z.any())] and [.optional()]. *)
Inductive ZodType : Type :=
| z_string
| z_number
| z_boolean
| z_enum (values : list string)
| z_record_any
| z_optional (inner : ZodType).

(** A raw shape: the object literal of field schemas, in source order. *)
Definition Shape : Type := list (string * ZodType).

(** [z.infer]: the type of a parsed value, as the handlers' parameter
    annotations spell it. An enum is a string at run time; that it is one
    of the listed values is [conforms]. *)
Fixpoint infer (z : ZodType) : Type :=
  match z with
  | z_string => string
  | z_number => Number
  | z_boolean => bool
  | z_enum _ => string
  | z_record_any => list (string * Value)
  | z_optional inner => option (infer inner)
  end.

(** The parsed object of a shape, one component per field, in order. The
    handlers take it apart by a pattern, as the source destructures its
    parameter. *)
Fixpoint infer_shape (s : Shape) : Type :=
  match s with
  | [] => unit
  | (_, z) :: rest => (infer z * infer_shape rest)%type
  end.

(** What the annotation of a field promises beyond its run-time type:
    ["Google" | "Microsoft"] for [z.enum(["Google", "Microsoft"])]. *)
Fixpoint conforms (z : ZodType) : infer z -> Prop :=
  match z with
  | z_enum values => fun s => In s values
  | z_optional inner =>
      fun o => match o with Some x => conforms inner x | None => True end
  | _ => fun _ => True
  end.

Fixpoint conforms_shape (s : Shape) : infer_shape s -> Prop :=
  match s with
  | [] => fun _ => True
  | (_, z) :: rest => fun a => conforms z (fst a) /\ conforms_shape rest (snd a)
  end.

Definition is_optional (z : ZodType) : bool :=
  match z with z_optional _ => true | _ => false end.

(** The keys a bag has to carry. *)
Definition required_fields (s : Shape) : list string :=
  List.map fst (List.filter (fun f => negb (is_optional (snd f))) s).

End Zod.
Import Zod.

(* ===================================================================== *)
(** ** The backend client boundary *)
(* ===================================================================== *)

Module Baas.

(** [{ provider: "Default" }] *)
Record SpeechToText : Type := { provider : string }.

(** The methods of [baasClient] the handlers call, with the arguments
    they are called with. An [option] is a value that may be [undefined]. *)
Inductive BaasCall : Type :=
| baas_joinMeeting
    (meetingUrl botName : string) (webhookUrl recordingMode : option string)
    (speechToText : option SpeechToText) (reserved : bool)
| baas_leaveMeeting (botId : string)
| baas_getMeetingData (botId : string)
| baas_deleteData (botId : string)
| baas_createCalendar
    (oauthClientId oauthClientSecret oauthRefreshToken : string)
    (platform : string) (rawCalendarId : string)
| baas_listCalendars
| baas_getCalendar (uuid : string)
| baas_deleteCalendar (uuid : string)
| baas_resyncAllCalendars
| baas_listRecentBots
    (botName createdAfter createdBefore cursor filterByExtra : option string)
    (limit : option Number) (meetingUrl sortByExtra speakerName : option string)
| baas_listEvents (calendarUuid : string)
| baas_scheduleRecordEvent
    (eventUuid : string) (botName : string) (extra : option (list (string * Value)))
| baas_unscheduleRecordEvent (eventUuid : string)
| baas_updateCalendar
    (uuid : string)
    (oauthClientId oauthClientSecret oauthRefreshToken : option string)
    (platform : option string) (rawCalendarId : option string).

(** How the promise of a call settles: it resolves to a value, [undefined]
    for a method that returns nothing, or rejects with one. *)
Inductive Settled : Type :=
| Resolved (value : Value)
| Rejected (reason : Value).

(** The client, seen from one invocation: a handler makes one call at
    most, and that call settles one way. *)
Definition BaasClient : Type := BaasCall -> Settled.

End Baas.
Import Baas.

(* ===================================================================== *)
(** ** The effects of a handler body *)
(* ===================================================================== *)

Module Effects.

(** What an invocation leaves behind: the backend calls it made and the
    lines it wrote with [console.error], both oldest first. *)
Record World : Type := {
  backend_calls : list BaasCall;
  console : list (string * Value)
}.

Definition untouched : World := {| backend_calls := []; console := [] |}.

(** An [async] body: it reads the client, extends the world, and returns
    or throws. *)
Definition Async (A : Type) : Type :=
  BaasClient -> World -> World * Completion A.

(** A computation of the language itself, inside the body: it leaves the
    world as it is, and what it throws the body throws. *)
Definition eval {A} (c : Completion A) : Async A :=
  fun _ w => (w, c).

Definition ret {A} (a : A) : Async A :=
  eval (Return a).

Definition bind {A B} (m : Async A) (k : A -> Async B) : Async B :=
  fun client w =>
    match m client w with
    | (w', Return a) => k a client w'
    | (w', Throw e) => (w', Throw e)
    end.

(** [await baasClient.method(args)]: the call is made, then its promise
    resolves to a value or the rejection is thrown. *)
Definition await (call : BaasCall) : Async Value :=
  fun client w =>
    let w' := {| backend_calls := backend_calls w ++ [call]; console := console w |} in
    match client call with
    | Resolved value => (w', Return value)
    | Rejected reason => (w', Throw reason)
    end.

(** [try { body } catch (error) { handler }] *)
Definition try_catch {A} (body : Async A) (handler : Value -> Async A) : Async A :=
  fun client w =>
    match body client w with
    | (w', Return a) => (w', Return a)
    | (w', Throw error) => handler error client w'
    end.

(** [console.error(message, error)] *)
Definition console_error (message : string) (error : Value) : Async unit :=
  fun _ w =>
    ({| backend_calls := backend_calls w; console := console w ++ [(message, error)] |},
     Return tt).

(** One invocation, from an untouched world. *)
Definition run {A} (m : Async A) (client : BaasClient) : World * Completion A :=
  m client untouched.

Definition calls_of {A} (m : Async A) (client : BaasClient) : list BaasCall :=
  backend_calls (fst (run m client)).

Definition completion_of {A} (m : Async A) (client : BaasClient) : Completion A :=
  snd (run m client).

End Effects.
Import Effects.

Declare Scope async_scope.
Delimit Scope async_scope with async.
Notation "x <- m ;; k" := (bind m (fun x => k))
  (at level 100, m at next level, right associativity) : async_scope.
Notation "m ;; k" := (bind m (fun _ => k))
  (at level 100, right associativity) : async_scope.

(* ===================================================================== *)
(** ** The tools of [src/api/server.ts] *)
(* ===================================================================== *)

Module Server.

Local Open Scope async_scope.

(** One block of [content]. The [text] is what the expression after
    [text:] evaluates to: a string, or [undefined] ([None]) where
    [JSON.stringify] returns that. *)
Record ContentBlock : Type := { type : string; text : option string }.

(** The envelope a handler returns. [isError] is [None] where the object
    literal has no such key. *)
Record ToolResult : Type := {
  content : list ContentBlock;
  isError : option bool
}.

(** The names under which [server.tool] is called, in source order. *)
Inductive Tool : Type :=
| joinMeeting
| leaveMeeting
| getMeetingData
| deleteData
| createCalendar
| listCalendars
| getCalendar
| deleteCalendar
| resyncAllCalendars
| botsWithMetadata
| listEvents
| scheduleRecordEvent
| unscheduleRecordEvent
| updateCalendar
| echo.

Definition registered : list Tool :=
  [ joinMeeting; leaveMeeting; getMeetingData; deleteData; createCalendar;
    listCalendars; getCalendar; deleteCalendar; resyncAllCalendars;
    botsWithMetadata; listEvents; scheduleRecordEvent; unscheduleRecordEvent;
    updateCalendar; echo ].

Definition name (t : Tool) : string :=
  match t with
  | joinMeeting => "joinMeeting"
  | leaveMeeting => "leaveMeeting"
  | getMeetingData => "getMeetingData"
  | deleteData => "deleteData"
  | createCalendar => "createCalendar"
  | listCalendars => "listCalendars"
  | getCalendar => "getCalendar"
  | deleteCalendar => "deleteCalendar"
  | resyncAllCalendars => "resyncAllCalendars"
  | botsWithMetadata => "botsWithMetadata"
  | listEvents => "listEvents"
  | scheduleRecordEvent => "scheduleRecordEvent"
  | unscheduleRecordEvent => "unscheduleRecordEvent"
  | updateCalendar => "updateCalendar"
  | echo => "echo"
  end.

(** The second argument of [server.tool]; [echo] is registered without. *)
Definition description (t : Tool) : option string :=
  match t with
  | joinMeeting => Some "Send an AI bot to join a video meeting. The bot can record the meeting, transcribe speech, and provide real-time audio streams. Use this when you want to: 1) Record a meeting 2) Get meeting transcriptions 3) Stream meeting audio 4) Monitor meeting attendance"
  | leaveMeeting => Some "Remove an AI bot from a meeting. Use this when you want to: 1) End a meeting recording 2) Stop transcription 3) Disconnect the bot from the meeting"
  | getMeetingData => Some "Get all data from a meeting including recording, transcript, and metadata. Use this when you want to: 1) Search through meeting transcripts 2) Get meeting recordings 3) Review meeting details 4) Access speaker information"
  | deleteData => Some "Delete all data from a meeting including recording, transcript, and logs. Use this when you want to: 1) Remove sensitive meeting data 2) Clear meeting recordings 3) Delete transcripts 4) Free up storage space"
  | createCalendar => Some "Connect a Google or Microsoft calendar to Meeting BaaS. Use this when you want to: 1) Link your work calendar 2) Enable automatic meeting recordings 3) Schedule bots for future meetings 4) Sync your calendar events"
  | listCalendars => Some "View all connected calendars. Use this when you want to: 1) See which calendars are linked 2) Check calendar connection status 3) View calendar details 4) Manage calendar integrations"
  | getCalendar => Some "Get detailed information about a specific calendar. Use this when you want to: 1) View calendar settings 2) Check sync status 3) See calendar events 4) Verify calendar connection"
  | deleteCalendar => Some "Remove a calendar connection. Use this when you want to: 1) Unlink a calendar 2) Stop automatic recordings 3) Remove calendar access 4) Clean up old integrations"
  | resyncAllCalendars => Some "Refresh all calendar data to ensure it's up to date. Use this when you want to: 1) Update meeting schedules 2) Sync new calendar changes 3) Refresh calendar data 4) Fix sync issues"
  | botsWithMetadata => Some "Search and filter through your meeting bots. Use this when you want to: 1) Find specific meetings 2) Filter by date range 3) Search by meeting name 4) View meeting history"
  | listEvents => Some "View all events in a calendar. Use this when you want to: 1) See upcoming meetings 2) View past meetings 3) Check meeting schedules 4) Browse calendar events"
  | scheduleRecordEvent => Some "Schedule a bot to automatically record a future meeting. Use this when you want to: 1) Set up automatic recording 2) Schedule future transcriptions 3) Plan meeting recordings 4) Enable recurring recordings"
  | unscheduleRecordEvent => Some "Cancel a scheduled recording for a meeting. Use this when you want to: 1) Stop automatic recording 2) Cancel future transcriptions 3) Remove scheduled recordings 4) Disable recurring recordings"
  | updateCalendar => Some "Update calendar connection settings. Use this when you want to: 1) Refresh calendar access 2) Update calendar credentials 3) Change calendar settings 4) Fix connection issues"
  | echo => None
  end.

(** The third argument of [server.tool]: the shape of the arguments. *)
Definition inputSchema (t : Tool) : Shape :=
  match t with
  | joinMeeting =>
      [ ("meetingUrl", z_string);
        ("botName", z_string);
        ("webhookUrl", z_optional z_string);
        ("recordingMode", z_optional z_string);
        ("speechToText", z_optional z_boolean);
        ("reserved", z_boolean) ]
  | leaveMeeting => [ ("botId", z_string) ]
  | getMeetingData => [ ("botId", z_string) ]
  | deleteData => [ ("botId", z_string) ]
  | createCalendar =>
      [ ("oauthClientId", z_string);
        ("oauthClientSecret", z_string);
        ("oauthRefreshToken", z_string);
        ("platform", z_enum ["Google"; "Microsoft"]);
        ("rawCalendarId", z_string) ]
  | listCalendars => []
  | getCalendar => [ ("uuid", z_string) ]
  | deleteCalendar => [ ("uuid", z_string) ]
  | resyncAllCalendars => []
  | botsWithMetadata =>
      [ ("botName", z_optional z_string);
        ("createdAfter", z_optional z_string);
        ("createdBefore", z_optional z_string);
        ("cursor", z_optional z_string);
        ("filterByExtra", z_optional z_string);
        ("limit", z_optional z_number);
        ("meetingUrl", z_optional z_string);
        ("sortByExtra", z_optional z_string);
        ("speakerName", z_optional z_string) ]
  | listEvents => [ ("calendarUuid", z_string) ]
  | scheduleRecordEvent =>
      [ ("eventUuid", z_string);
        ("botName", z_string);
        ("extra", z_optional z_record_any) ]
  | unscheduleRecordEvent => [ ("eventUuid", z_string) ]
  | updateCalendar =>
      [ ("uuid", z_string);
        ("oauthClientId", z_optional z_string);
        ("oauthClientSecret", z_optional z_string);
        ("oauthRefreshToken", z_optional z_string);
        ("platform", z_optional (z_enum ["Google"; "Microsoft"]));
        ("rawCalendarId", z_optional z_string) ]
  | echo => [ ("message", z_string) ]
  end.

(** The parameter of a tool's handler. *)
Definition Args (t : Tool) : Type := infer_shape (inputSchema t).

(** The test [c ? a : b] on a [boolean | undefined]. *)
Definition truthy (c : option bool) : bool :=
  match c with Some b => b | None => false end.

(** [x === s] for a [string | undefined] and a string literal. *)
Definition strict_equal (x : option string) (s : string) : bool :=
  match x with Some y => String.eqb y s | None => false end.

(** *** The handlers (the fourth argument of [server.tool]) *)

(** Lines 23-67. *)
Definition handle_joinMeeting : Args joinMeeting -> Async ToolResult :=
  fun '(meetingUrl, (botName, (webhookUrl, (recordingMode, (speechToText, (reserved, _)))))) =>
    try_catch
      (botId <- await (baas_joinMeeting
                         meetingUrl
                         botName
                         webhookUrl
                         recordingMode
                         (if truthy speechToText
                          then Some {| provider := "Default" |}
                          else None)
                         reserved);;
       id <- eval (ToString botId);;
       ret {| content :=
                [ {| type := "text";
                     text := Some ("Successfully joined meeting with bot ID: " +:+ id) |} ];
              isError := None |})
      (fun error =>
         console_error "Failed to join meeting:" error;;
         ret {| content := [ {| type := "text"; text := Some "Failed to join meeting" |} ];
                isError := Some true |}).

(** Lines 74-99. *)
Definition handle_leaveMeeting : Args leaveMeeting -> Async ToolResult :=
  fun '(botId, _) =>
    try_catch
      (success <- await (baas_leaveMeeting botId);;
       ret {| content :=
                [ {| type := "text";
                     text := Some (if ToBoolean success
                                   then "Successfully left meeting"
                                   else "Failed to leave meeting") |} ];
              isError := None |})
      (fun error =>
         console_error "Failed to leave meeting:" error;;
         ret {| content := [ {| type := "text"; text := Some "Failed to leave meeting" |} ];
                isError := Some true |}).

(** Lines 106-129. *)
Definition handle_getMeetingData : Args getMeetingData -> Async ToolResult :=
  fun '(botId, _) =>
    try_catch
      (data <- await (baas_getMeetingData botId);;
       printed <- eval (JSON_stringify data);;
       ret {| content := [ {| type := "text"; text := printed |} ];
              isError := None |})
      (fun error =>
         console_error "Failed to get meeting data:" error;;
         ret {| content := [ {| type := "text"; text := Some "Failed to get meeting data" |} ];
                isError := Some true |}).

(** Lines 136-159. The value the call resolves to is bound and not read. *)
Definition handle_deleteData : Args deleteData -> Async ToolResult :=
  fun '(botId, _) =>
    try_catch
      (result <- await (baas_deleteData botId);;
       ret {| content :=
                [ {| type := "text"; text := Some "Successfully deleted meeting data" |} ];
              isError := None |})
      (fun error =>
         console_error "Failed to delete data:" error;;
         ret {| content :=
                  [ {| type := "text"; text := Some "Failed to delete meeting data" |} ];
                isError := Some true |}).

(** Lines 172-217. *)
Definition handle_createCalendar : Args createCalendar -> Async ToolResult :=
  fun '(oauthClientId, (oauthClientSecret, (oauthRefreshToken, (platform, (rawCalendarId, _))))) =>
    try_catch
      (calendar <- await (baas_createCalendar
                            oauthClientId
                            oauthClientSecret
                            oauthRefreshToken
                            (if String.eqb platform "Google" then "Google" else "Microsoft")
                            rawCalendarId);;
       printed <- eval (JSON_stringify calendar);;
       ret {| content :=
                [ {| type := "text";
                     text := Some ("Successfully created calendar: " +:+ interpolate printed) |} ];
              isError := None |})
      (fun error =>
         console_error "Failed to create calendar:" error;;
         ret {| content := [ {| type := "text"; text := Some "Failed to create calendar" |} ];
                isError := Some true |}).

(** Lines 224-247. *)
Definition handle_listCalendars : Args listCalendars -> Async ToolResult :=
  fun _ =>
    try_catch
      (calendars <- await baas_listCalendars;;
       printed <- eval (JSON_stringify calendars);;
       ret {| content := [ {| type := "text"; text := printed |} ];
              isError := None |})
      (fun error =>
         console_error "Failed to list calendars:" error;;
         ret {| content := [ {| type := "text"; text := Some "Failed to list calendars" |} ];
                isError := Some true |}).

(** Lines 254-277. *)
Definition handle_getCalendar : Args getCalendar -> Async ToolResult :=
  fun '(uuid, _) =>
    try_catch
      (calendar <- await (baas_getCalendar uuid);;
       printed <- eval (JSON_stringify calendar);;
       ret {| content := [ {| type := "text"; text := printed |} ];
              isError := None |})
      (fun error =>
         console_error "Failed to get calendar:" error;;
         ret {| content := [ {| type := "text"; text := Some "Failed to get calendar" |} ];
                isError := Some true |}).

(** Lines 284-309. *)
Definition handle_deleteCalendar : Args deleteCalendar -> Async ToolResult :=
  fun '(uuid, _) =>
    try_catch
      (success <- await (baas_deleteCalendar uuid);;
       ret {| content :=
                [ {| type := "text";
                     text := Some (if ToBoolean success
                                   then "Successfully deleted calendar"
                                   else "Failed to delete calendar") |} ];
              isError := None |})
      (fun error =>
         console_error "Failed to delete calendar:" error;;
         ret {| content := [ {| type := "text"; text := Some "Failed to delete calendar" |} ];
                isError := Some true |}).

(** Lines 316-339. The value the call resolves to is bound and not read. *)
Definition handle_resyncAllCalendars : Args resyncAllCalendars -> Async ToolResult :=
  fun _ =>
    try_catch
      (result <- await baas_resyncAllCalendars;;
       ret {| content :=
                [ {| type := "text"; text := Some "Successfully resynced all calendars" |} ];
              isError := None |})
      (fun error =>
         console_error "Failed to resync calendars:" error;;
         ret {| content := [ {| type := "text"; text := Some "Failed to resync calendars" |} ];
                isError := Some true |}).

(** Lines 356-409. The tool [botsWithMetadata] calls [listRecentBots]. *)
Definition handle_botsWithMetadata : Args botsWithMetadata -> Async ToolResult :=
  fun '(botName, (createdAfter, (createdBefore, (cursor, (filterByExtra,
        (limit, (meetingUrl, (sortByExtra, (speakerName, _))))))))) =>
    try_catch
      (bots <- await (baas_listRecentBots
                        botName
                        createdAfter
                        createdBefore
                        cursor
                        filterByExtra
                        limit
                        meetingUrl
                        sortByExtra
                        speakerName);;
       printed <- eval (JSON_stringify bots);;
       ret {| content := [ {| type := "text"; text := printed |} ];
              isError := None |})
      (fun error =>
         console_error "Failed to get bots with metadata:" error;;
         ret {| content :=
                  [ {| type := "text"; text := Some "Failed to get bots with metadata" |} ];
                isError := Some true |}).

(** Lines 416-439. *)
Definition handle_listEvents : Args listEvents -> Async ToolResult :=
  fun '(calendarUuid, _) =>
    try_catch
      (events <- await (baas_listEvents calendarUuid);;
       printed <- eval (JSON_stringify events);;
       ret {| content := [ {| type := "text"; text := printed |} ];
              isError := None |})
      (fun error =>
         console_error "Failed to list events:" error;;
         ret {| content := [ {| type := "text"; text := Some "Failed to list events" |} ];
                isError := Some true |}).

(** Lines 450-484. *)
Definition handle_scheduleRecordEvent : Args scheduleRecordEvent -> Async ToolResult :=
  fun '(eventUuid, (botName, (extra, _))) =>
    try_catch
      (result <- await (baas_scheduleRecordEvent eventUuid botName extra);;
       ret {| content :=
                [ {| type := "text"; text := Some "Successfully scheduled event recording" |} ];
              isError := None |})
      (fun error =>
         console_error "Failed to schedule event recording:" error;;
         ret {| content :=
                  [ {| type := "text"; text := Some "Failed to schedule event recording" |} ];
                isError := Some true |}).

(** Lines 491-514. *)
Definition handle_unscheduleRecordEvent : Args unscheduleRecordEvent -> Async ToolResult :=
  fun '(eventUuid, _) =>
    try_catch
      (result <- await (baas_unscheduleRecordEvent eventUuid);;
       ret {| content :=
                [ {| type := "text"; text := Some "Successfully unscheduled event recording" |} ];
              isError := None |})
      (fun error =>
         console_error "Failed to unschedule event recording:" error;;
         ret {| content :=
                  [ {| type := "text"; text := Some "Failed to unschedule event recording" |} ];
                isError := Some true |}).

(** Lines 528-575. *)
Definition handle_updateCalendar : Args updateCalendar -> Async ToolResult :=
  fun '(uuid, (oauthClientId, (oauthClientSecret, (oauthRefreshToken,
        (platform, (rawCalendarId, _)))))) =>
    try_catch
      (calendar <- await (baas_updateCalendar
                            uuid
                            oauthClientId
                            oauthClientSecret
                            oauthRefreshToken
                            (Some (if strict_equal platform "Google"
                                   then "Google"
                                   else "Microsoft"))
                            rawCalendarId);;
       printed <- eval (JSON_stringify calendar);;
       ret {| content :=
                [ {| type := "text";
                     text := Some ("Successfully updated calendar: " +:+ interpolate printed) |} ];
              isError := None |})
      (fun error =>
         console_error "Failed to update calendar:" error;;
         ret {| content := [ {| type := "text"; text := Some "Failed to update calendar" |} ];
                isError := Some true |}).

(** Lines 579-586: no backend call, no [try]. *)
Definition handle_echo : Args echo -> Async ToolResult :=
  fun '(message, _) =>
    ret {| content := [ {| type := "text"; text := Some ("Tool echo: " +:+ message) |} ];
           isError := None |}.

Definition handler (t : Tool) : Args t -> Async ToolResult :=
  match t with
  | joinMeeting => handle_joinMeeting
  | leaveMeeting => handle_leaveMeeting
  | getMeetingData => handle_getMeetingData
  | deleteData => handle_deleteData
  | createCalendar => handle_createCalendar
  | listCalendars => handle_listCalendars
  | getCalendar => handle_getCalendar
  | deleteCalendar => handle_deleteCalendar
  | resyncAllCalendars => handle_resyncAllCalendars
  | botsWithMetadata => handle_botsWithMetadata
  | listEvents => handle_listEvents
  | scheduleRecordEvent => handle_scheduleRecordEvent
  | unscheduleRecordEvent => handle_unscheduleRecordEvent
  | updateCalendar => handle_updateCalendar
  | echo => handle_echo
  end.

(** Line 8: [process.env.BAAS_API_KEY || ""], the key the client is built
    with. The variable is a string or is not set; [a || b] is [a] when [a]
    is truthy, and the empty string is not. *)
Definition apiKey (BAAS_API_KEY : option string) : string :=
  match BAAS_API_KEY with
  | Some key => if negb (String.eqb key "") then key else ""
  | None => ""
  end.

(** Lines 589-637: [capabilities.tools], the second argument of
    [initializeMcpApiHandler], one description under each key, in source
    order. *)
Definition capabilities : list (string * string) :=
  [ ("joinMeeting", "Join's a meeting using the MeetingBaas api");
    ("leaveMeeting", "Leave a meeting using the MeetingBaas api");
    ("getMeetingData", "Get meeting data using the MeetingBaas api");
    ("deleteData", "Delete meeting data using the MeetingBaas api");
    ("createCalendar", "Create a calendar using the MeetingBaas api");
    ("listCalendars", "List calendars using the MeetingBaas api");
    ("getCalendar", "Get calendar using the MeetingBaas api");
    ("deleteCalendar", "Delete calendar using the MeetingBaas api");
    ("resyncAllCalendars", "Resync all calendars using the MeetingBaas api");
    ("botsWithMetadata", "Get bots with metadata using the MeetingBaas api");
    ("listEvents", "List events using the MeetingBaas api");
    ("scheduleRecordEvent", "Schedule a recording using the MeetingBaas api");
    ("unscheduleRecordEvent", "Unschedule a recording using the MeetingBaas api");
    ("updateCalendar", "Update calendar using the MeetingBaas api");
    ("echo", "Echo a message") ].

End Server.
Import Server.


(* ===================================================================== *)
(** ** Lookup, validation, invocation *)
(* ===================================================================== *)

Module Dispatch.

(** The argument bag of a call, as received: keys to JSON values. *)
Abbreviation RawArgs := (gmap string Value).

(** Modelled from the spec: the registry's [lookup] (section 4.1), which
    [server.tool] fills and the MCP server reads; the server itself is
    not in [src/]. The first registered tool with the name, if any. *)
Definition lookup (toolName : string) : option Tool :=
  List.find (fun t => String.eqb (name t) toolName) registered.

(** Modelled from the spec: the ways a field fails its schema (section
    4.2, step 2; the validator is not in [src/]): a missing required
    field, a wrong primitive type, an enum value outside the declared
    set. *)
Inductive Issue : Type :=
| Required
| InvalidType
| InvalidEnumValue.

(** Modelled from the spec: the result of validation (section 4.2, step
    2; the validator is not in [src/]), the typed arguments or the first
    violation. *)
Inductive Parsed (A : Type) : Type :=
| Valid (data : A)
| Invalid (field : string) (issue : Issue).
Arguments Valid {A} data.
Arguments Invalid {A} field issue.

(** Modelled from the spec: the check of one field against its schema
    (section 4.2, step 2), which zod performs and which is not in [src/].
    [None] is a key the bag does not carry. Only [.optional()] accepts
    that; [null] is a value like any other. *)
Fixpoint parse_field (z : ZodType) : option Value -> Issue + infer z :=
  match z return option Value -> Issue + infer z with
  | z_string => fun v =>
      match v with
      | None => inl Required
      | Some (JStr s) => inr s
      | Some _ => inl InvalidType
      end
  | z_number => fun v =>
      match v with
      | None => inl Required
      | Some (JNum n) => inr n
      | Some _ => inl InvalidType
      end
  | z_boolean => fun v =>
      match v with
      | None => inl Required
      | Some (JBool b) => inr b
      | Some _ => inl InvalidType
      end
  | z_enum values => fun v =>
      match v with
      | None => inl Required
      | Some (JStr s) =>
          if existsb (String.eqb s) values then inr s else inl InvalidEnumValue
      | Some _ => inl InvalidType
      end
  | z_record_any => fun v =>
      match v with
      | None => inl Required
      | Some (JObj members) => inr members
      | Some _ => inl InvalidType
      end
  | z_optional inner => fun v =>
      match v with
      | None => inr None
      | Some x =>
          match parse_field inner (Some x) with
          | inl issue => inl issue
          | inr a => inr (Some a)
          end
      end
  end.

(** Modelled from the spec: the validation of a bag against a shape
    (section 4.2, step 2). Fields are checked in the order of the shape
    and the first violation is the one reported; keys outside the shape
    are dropped. *)
Fixpoint parse_shape (s : Shape) (raw : RawArgs) : Parsed (infer_shape s) :=
  match s return Parsed (infer_shape s) with
  | [] => Valid tt
  | (k, z) :: rest =>
      match parse_field z (raw !! k) with
      | inl issue => Invalid k issue
      | inr a =>
          match parse_shape rest raw with
          | Valid b => Valid (a, b)
          | Invalid k' issue => Invalid k' issue
          end
      end
  end.

(** Modelled from the spec: the wording of a violation, which the spec
    leaves open (section 7: a message identifying the violating field). *)
Definition describe (issue : Issue) : string :=
  match issue with
  | Required => "Required"
  | InvalidType => "Invalid type"
  | InvalidEnumValue => "Invalid enum value"
  end.

(** Modelled from the spec: the error envelope of the dispatcher
    (section 4.2; the dispatcher is not in [src/]), one text block and
    [isError: true]. *)
Definition error_envelope (message : string) : ToolResult :=
  {| content := [ {| type := "text"; text := Some message |} ]; isError := Some true |}.

(** Modelled from the spec: the invocation dispatcher (section 4.2), which
    lives in the MCP server behind [initializeMcpApiHandler] and is not
    in [src/]. Step 1 looks the tool up, step 2 validates the bag, step 3
    calls the handler with the parsed arguments; the handlers of
    [src/api/server.ts] do step 4 themselves. *)
Definition dispatch (toolName : string) (raw : RawArgs) : Async ToolResult :=
  match lookup toolName with
  | None => ret (error_envelope ("Unknown tool: " +:+ toolName))
  | Some t =>
      match parse_shape (inputSchema t) raw with
      | Invalid field issue =>
          ret (error_envelope
                 ("Invalid arguments for tool " +:+ toolName +:+ ": "
                  +:+ field +:+ ": " +:+ describe issue))
      | Valid args => handler t args
      end
  end.

End Dispatch.
Import Dispatch.

(* ===================================================================== *)
(** ** The vocabulary of the statements *)
(* ===================================================================== *)

(** The backend call of the invocation settled this way. *)
Definition resolves (t : Tool) (a : Args t) (client : BaasClient) (value : Value) : Prop :=
  exists call, calls_of (handler t a) client = [call] /\ client call = Resolved value.

Definition rejects (t : Tool) (a : Args t) (client : BaasClient) (reason : Value) : Prop :=
  exists call, calls_of (handler t a) client = [call] /\ client call = Rejected reason.

(** A well-formed envelope: a non-empty [content] of text blocks; here
    always a single one. *)
Definition text_envelope (result : ToolResult) : Prop :=
  content result <> []
  /\ Forall (fun block => type block = "text") (content result)
  /\ exists printed : option string, List.map text (content result) = [printed].



(** The sentence of each handler's [catch] branch. [echo] has none. *)
Definition failure_sentence (t : Tool) : option string :=
  match t with
  | joinMeeting => Some "Failed to join meeting"
  | leaveMeeting => Some "Failed to leave meeting"
  | getMeetingData => Some "Failed to get meeting data"
  | deleteData => Some "Failed to delete meeting data"
  | createCalendar => Some "Failed to create calendar"
  | listCalendars => Some "Failed to list calendars"
  | getCalendar => Some "Failed to get calendar"
  | deleteCalendar => Some "Failed to delete calendar"
  | resyncAllCalendars => Some "Failed to resync calendars"
  | botsWithMetadata => Some "Failed to get bots with metadata"
  | listEvents => Some "Failed to list events"
  | scheduleRecordEvent => Some "Failed to schedule event recording"
  | unscheduleRecordEvent => Some "Failed to unschedule event recording"
  | updateCalendar => Some "Failed to update calendar"
  | echo => None
  end.

(** The reading of the spec: the envelope is not flagged and its sentence
    opens with "Successfully " when the backend resolved [true], with
    "Failed to " when it resolved [false]. *)
Definition sentence_chosen_by
    (t : Tool) (a : Args t) (client : BaasClient) (status : bool) : Prop :=
  exists s,
    completion_of (handler t a) client
    = Return {| content := [ {| type := "text"; text := Some s |} ]; isError := None |}
    /\ String.prefix (if status then "Successfully " else "Failed to ") s = true.

(** What the four handlers render when the backend call resolves. *)
Definition status_sentence (t : Tool) (status : Value) : string :=
  match t with
  | leaveMeeting =>
      if ToBoolean status then "Successfully left meeting" else "Failed to leave meeting"
  | deleteCalendar =>
      if ToBoolean status then "Successfully deleted calendar" else "Failed to delete calendar"
  | deleteData => "Successfully deleted meeting data"
  | resyncAllCalendars => "Successfully resynced all calendars"
  | _ => ""
  end.

(** The reading of the spec, "forwarded to the backend client unchanged":
    the backend calls of an invocation whose payload is the arguments as
    they were validated, field for field. [echo] calls nothing. The spec
    sets [joinMeeting] aside, whose [speechToText] changes type on the
    way. *)
Definition forwarded_unchanged (t : Tool) : Args t -> option (list BaasCall) :=
  match t return Args t -> option (list BaasCall) with
  | joinMeeting => fun _ => None
  | leaveMeeting => fun '(botId, _) => Some [baas_leaveMeeting botId]
  | getMeetingData => fun '(botId, _) => Some [baas_getMeetingData botId]
  | deleteData => fun '(botId, _) => Some [baas_deleteData botId]
  | createCalendar =>
      fun '(oauthClientId, (oauthClientSecret, (oauthRefreshToken,
            (platform, (rawCalendarId, _))))) =>
        Some [baas_createCalendar oauthClientId oauthClientSecret oauthRefreshToken
                platform rawCalendarId]
  | listCalendars => fun _ => Some [baas_listCalendars]
  | getCalendar => fun '(uuid, _) => Some [baas_getCalendar uuid]
  | deleteCalendar => fun '(uuid, _) => Some [baas_deleteCalendar uuid]
  | resyncAllCalendars => fun _ => Some [baas_resyncAllCalendars]
  | botsWithMetadata =>
      fun '(botName, (createdAfter, (createdBefore, (cursor, (filterByExtra,
            (limit, (meetingUrl, (sortByExtra, (speakerName, _))))))))) =>
        Some [baas_listRecentBots botName createdAfter createdBefore cursor
                filterByExtra limit meetingUrl sortByExtra speakerName]
  | listEvents => fun '(calendarUuid, _) => Some [baas_listEvents calendarUuid]
  | scheduleRecordEvent =>
      fun '(eventUuid, (botName, (extra, _))) =>
        Some [baas_scheduleRecordEvent eventUuid botName extra]
  | unscheduleRecordEvent =>
      fun '(eventUuid, _) => Some [baas_unscheduleRecordEvent eventUuid]
  | updateCalendar =>
      fun '(uuid, (oauthClientId, (oauthClientSecret, (oauthRefreshToken,
            (platform, (rawCalendarId, _)))))) =>
        Some [baas_updateCalendar uuid oauthClientId oauthClientSecret
                oauthRefreshToken platform rawCalendarId]
  | echo => fun _ => Some []
  end.

(** The one change a handler other than [joinMeeting]'s makes to a
    validated argument: [updateCalendar] replaces [platform] by "Google"
    if it is "Google" and by "Microsoft" if it is anything else or
    missing. The arguments of the other tools are left as they are. *)
Definition platform_defaulted (t : Tool) : Args t -> Args t :=
  match t return Args t -> Args t with
  | updateCalendar =>
      fun '(uuid, (oauthClientId, (oauthClientSecret, (oauthRefreshToken,
            (platform, (rawCalendarId, u)))))) =>
        (uuid, (oauthClientId, (oauthClientSecret, (oauthRefreshToken,
          (Some (if strict_equal platform "Google" then "Google" else "Microsoft"),
           (rawCalendarId, u))))))
  | _ => fun a => a
  end.

(** The backend call of the invocation settled as [outcome]. *)
Definition settles (t : Tool) (a : Args t) (client : BaasClient) (outcome : Settled) : Prop :=
  exists call, calls_of (handler t a) client = [call] /\ client call = outcome.

(** What an invocation wrote with [console.error]. *)
Definition console_of {A : Type} (m : Async A) (client : BaasClient) : list (string * Value) :=
  console (fst (run m client)).

(** The first argument of [console.error] in each [catch] branch. *)
Definition log_label (t : Tool) : option string :=
  match t with
  | joinMeeting => Some "Failed to join meeting:"
  | leaveMeeting => Some "Failed to leave meeting:"
  | getMeetingData => Some "Failed to get meeting data:"
  | deleteData => Some "Failed to delete data:"
  | createCalendar => Some "Failed to create calendar:"
  | listCalendars => Some "Failed to list calendars:"
  | getCalendar => Some "Failed to get calendar:"
  | deleteCalendar => Some "Failed to delete calendar:"
  | resyncAllCalendars => Some "Failed to resync calendars:"
  | botsWithMetadata => Some "Failed to get bots with metadata:"
  | listEvents => Some "Failed to list events:"
  | scheduleRecordEvent => Some "Failed to schedule event recording:"
  | unscheduleRecordEvent => Some "Failed to unschedule event recording:"
  | updateCalendar => Some "Failed to update calendar:"
  | echo => None
  end.

(** The tool whose handler calls a backend method. *)
Definition tool_of_call (call : BaasCall) : Tool :=
  match call with
  | baas_joinMeeting _ _ _ _ _ _ => joinMeeting
  | baas_leaveMeeting _ => leaveMeeting
  | baas_getMeetingData _ => getMeetingData
  | baas_deleteData _ => deleteData
  | baas_createCalendar _ _ _ _ _ => createCalendar
  | baas_listCalendars => listCalendars
  | baas_getCalendar _ => getCalendar
  | baas_deleteCalendar _ => deleteCalendar
  | baas_resyncAllCalendars => resyncAllCalendars
  | baas_listRecentBots _ _ _ _ _ _ _ _ _ => botsWithMetadata
  | baas_listEvents _ => listEvents
  | baas_scheduleRecordEvent _ _ _ => scheduleRecordEvent
  | baas_unscheduleRecordEvent _ => unscheduleRecordEvent
  | baas_updateCalendar _ _ _ _ _ _ => updateCalendar
  end.

(** The text opens with a capital F, as every failure sentence does. *)
Definition opens_with_F (s : string) : Prop :=
  match s with
  | String c _ => c = ascii_of_nat 70
  | EmptyString => False
  end.

(** No character of the text is a capital F. *)
Fixpoint lacks_F (s : string) : bool :=
  match s with
  | EmptyString => true
  | String c rest => negb (Ascii.eqb c (ascii_of_nat 70)) && lacks_F rest
  end.

(** What the seven tools that return data put in [text] when the backend
    call has resolved and [JSON.stringify] has returned [printed]. *)
Definition rendered_data (t : Tool) (printed : option string) : option (option string) :=
  match t with
  | getMeetingData | listCalendars | getCalendar | botsWithMetadata | listEvents =>
      Some printed
  | createCalendar => Some (Some ("Successfully created calendar: " +:+ interpolate printed))
  | updateCalendar => Some (Some ("Successfully updated calendar: " +:+ interpolate printed))
  | _ => None
  end.

(** What an operation threw, if it did. *)
Definition thrown {A : Type} (c : Completion A) : option Value :=
  match c with
  | Throw error => Some error
  | Return _ => None
  end.

(** What the [try] block of a tool throws after its backend call has
    resolved to [value]: what the template literal of [joinMeeting] throws,
    what [JSON.stringify] throws in the seven tools that print the value;
    the other tools have nothing there that throws. *)
Definition thrown_after (t : Tool) (value : Value) : option Value :=
  match t with
  | joinMeeting => thrown (ToString value)
  | getMeetingData | createCalendar | listCalendars | getCalendar
  | botsWithMetadata | listEvents | updateCalendar => thrown (JSON_stringify value)
  | _ => None
  end.

(* ===================================================================== *)
(** ** One handler, one call *)
(* ===================================================================== *)

(** Every handler but [echo]'s is one [await] in a [try] whose [catch]
    logs and returns: this is all such a body can do. *)
Lemma run_try_await {A : Type} (call : BaasCall) (render : Value -> A)
    (message : string) (failure : A) (client : BaasClient) :
  run (try_catch
         (bind (await call) (fun x => ret (render x)))
         (fun error => bind (console_error message error) (fun _ => ret failure)))
      client
  = match client call with
    | Resolved value =>
        ({| backend_calls := [call]; console := [] |}, Return (render value))
    | Rejected reason =>
        ({| backend_calls := [call]; console := [(message, reason)] |}, Return failure)
    end.
Proof.
  unfold run, try_catch, bind, await, ret, eval, console_error; simpl.
  destruct (client call); reflexivity.
Qed.

(** The same with a conversion between the [await] and the [return]:
    what the conversion throws goes to the [catch] like a rejection. *)
Lemma run_try_await_eval {A B : Type} (call : BaasCall)
    (convert : Value -> Completion B) (render : B -> A)
    (message : string) (failure : A) (client : BaasClient) :
  run (try_catch
         (bind (await call)
            (fun x => bind (eval (convert x)) (fun s => ret (render s))))
         (fun error => bind (console_error message error) (fun _ => ret failure)))
      client
  = match client call with
    | Resolved value =>
        match convert value with
        | Return s => ({| backend_calls := [call]; console := [] |}, Return (render s))
        | Throw error =>
            ({| backend_calls := [call]; console := [(message, error)] |}, Return failure)
        end
    | Rejected reason =>
        ({| backend_calls := [call]; console := [(message, reason)] |}, Return failure)
    end.
Proof.
  unfold run, try_catch, bind, await, ret, eval, console_error; simpl.
  destruct (client call) as [value | reason]; [ | reflexivity ].
  destruct (convert value); reflexivity.
Qed.

Lemma calls_try_await {A : Type} (call : BaasCall) (render : Value -> A)
    (message : string) (failure : A) (client : BaasClient) :
  calls_of (try_catch
              (bind (await call) (fun x => ret (render x)))
              (fun error => bind (console_error message error) (fun _ => ret failure)))
           client
  = [call].
Proof. unfold calls_of. rewrite run_try_await. destruct (client call); reflexivity. Qed.

Lemma calls_try_await_eval {A B : Type} (call : BaasCall)
    (convert : Value -> Completion B) (render : B -> A)
    (message : string) (failure : A) (client : BaasClient) :
  calls_of (try_catch
              (bind (await call)
                 (fun x => bind (eval (convert x)) (fun s => ret (render s))))
              (fun error => bind (console_error message error) (fun _ => ret failure)))
           client
  = [call].
Proof.
  unfold calls_of. rewrite run_try_await_eval.
  destruct (client call) as [value | reason]; [ | reflexivity ].
  destruct (convert value); reflexivity.
Qed.

Lemma completion_try_await {A : Type} (call : BaasCall) (render : Value -> A)
    (message : string) (failure : A) (client : BaasClient) :
  completion_of (try_catch
                   (bind (await call) (fun x => ret (render x)))
                   (fun error => bind (console_error message error) (fun _ => ret failure)))
                client
  = match client call with
    | Resolved value => Return (render value)
    | Rejected _ => Return failure
    end.
Proof. unfold completion_of. rewrite run_try_await. destruct (client call); reflexivity. Qed.

Lemma completion_try_await_eval {A B : Type} (call : BaasCall)
    (convert : Value -> Completion B) (render : B -> A)
    (message : string) (failure : A) (client : BaasClient) :
  completion_of (try_catch
                   (bind (await call)
                      (fun x => bind (eval (convert x)) (fun s => ret (render s))))
                   (fun error => bind (console_error message error) (fun _ => ret failure)))
                client
  = match client call with
    | Resolved value =>
        match convert value with
        | Return s => Return (render s)
        | Throw _ => Return failure
        end
    | Rejected _ => Return failure
    end.
Proof.
  unfold completion_of. rewrite run_try_await_eval.
  destruct (client call) as [value | reason]; [ | reflexivity ].
  destruct (convert value); reflexivity.
Qed.

Lemma console_try_await {A : Type} (call : BaasCall) (render : Value -> A)
    (message : string) (failure : A) (client : BaasClient) :
  console_of (try_catch
                (bind (await call) (fun x => ret (render x)))
                (fun error => bind (console_error message error) (fun _ => ret failure)))
             client
  = match client call with
    | Resolved _ => []
    | Rejected reason => [(message, reason)]
    end.
Proof. unfold console_of. rewrite run_try_await. destruct (client call); reflexivity. Qed.

Lemma console_try_await_eval {A B : Type} (call : BaasCall)
    (convert : Value -> Completion B) (render : B -> A)
    (message : string) (failure : A) (client : BaasClient) :
  console_of (try_catch
                (bind (await call)
                   (fun x => bind (eval (convert x)) (fun s => ret (render s))))
                (fun error => bind (console_error message error) (fun _ => ret failure)))
             client
  = match client call with
    | Resolved value =>
        match convert value with
        | Return _ => []
        | Throw error => [(message, error)]
        end
    | Rejected reason => [(message, reason)]
    end.
Proof.
  unfold console_of. rewrite run_try_await_eval.
  destruct (client call) as [value | reason]; [ | reflexivity ].
  destruct (convert value); reflexivity.
Qed.

(** Take the parsed arguments apart, as the handler's parameter pattern does. *)
Ltac open_args a :=
  cbv [Args inputSchema infer_shape infer] in a;
  repeat match type of a with
         | (_ * _)%type => let x := fresh "x" in destruct a as [x a]
         | unit => destruct a
         end.

Ltac run_handler :=
  unfold resolves, rejects in *;
  cbv [handler handle_joinMeeting handle_leaveMeeting handle_getMeetingData
       handle_deleteData handle_createCalendar handle_listCalendars
       handle_getCalendar handle_deleteCalendar handle_resyncAllCalendars
       handle_botsWithMetadata handle_listEvents handle_scheduleRecordEvent
       handle_unscheduleRecordEvent handle_updateCalendar handle_echo] in *;
  rewrite ?calls_try_await, ?calls_try_await_eval,
          ?completion_try_await, ?completion_try_await_eval in *;
  cbn [truthy strict_equal] in *.

Ltac run_traced :=
  unfold settles in *; run_handler;
  rewrite ?console_try_await, ?console_try_await_eval in *.

(** The hypothesis [resolves] or [rejects], once the handler has run:
    name the call and rewrite with how it settled. *)
Ltac use_settled H :=
  let call := fresh "call" in
  let Hcalls := fresh "Hcalls" in
  let Hsettled := fresh "Hsettled" in
  destruct H as [call [Hcalls Hsettled]];
  first [ injection Hcalls as <-; rewrite ?Hsettled | discriminate Hcalls ].

(* ===================================================================== *)
(** ** Backend failure *)
(* ===================================================================== *)

Lemma rejection_caught (t : Tool) (a : Args t) (client : BaasClient) (reason : Value) :
  rejects t a client reason ->
  exists sentence,
    failure_sentence t = Some sentence /\
    completion_of (handler t a) client
    = Return {| content := [ {| type := "text"; text := Some sentence |} ];
                isError := Some true |}.
Proof.
  intros H.
  destruct t; open_args a; run_handler; use_settled H;
    eexists; split; reflexivity.
Qed.

(** C1. For every registered tool, when the backend client call of an
    invocation rejects, the handler returns the envelope with one text
    block holding the tool's fixed failure sentence and [isError = true];
    and two invocations with the same arguments whose backend calls reject,
    with whatever reasons, return the same envelope: the reason is logged,
    it does not reach the envelope. *)
Theorem backend_rejection_yields_fixed_failure
    (t : Tool) (a : Args t) (client client' : BaasClient) (reason reason' : Value) :
  rejects t a client reason ->
  rejects t a client' reason' ->
  (exists sentence,
      failure_sentence t = Some sentence /\
      completion_of (handler t a) client
      = Return {| content := [ {| type := "text"; text := Some sentence |} ];
                  isError := Some true |})
  /\ completion_of (handler t a) client' = completion_of (handler t a) client.
Proof.
  intros H H'.
  destruct (rejection_caught t a client reason H) as [s [Hs Hc]].
  destruct (rejection_caught t a client' reason' H') as [s' [Hs' Hc']].
  split.
  - exists s. split; assumption.
  - rewrite Hc, Hc'. congruence.
Qed.

(** The scenario of the spec: [getMeetingData({botId: "bot-404"})] with a
    backend that rejects. *)
Lemma backend_rejection_yields_fixed_failure_witness :
  let a : Args getMeetingData := ("bot-404", tt) in
  let client : BaasClient := fun _ => Rejected (JStr "404 Not Found") in
  let client' : BaasClient :=
    fun _ => Rejected (JObj [("message", JStr "socket hang up")]) in
  completion_of (handler getMeetingData a) client
  = Return {| content := [ {| type := "text"; text := Some "Failed to get meeting data" |} ];
              isError := Some true |}
  /\ completion_of (handler getMeetingData a) client'
     = completion_of (handler getMeetingData a) client.
Proof.
  intros a client client'.
  destruct (backend_rejection_yields_fixed_failure getMeetingData a client client'
              (JStr "404 Not Found") (JObj [("message", JStr "socket hang up")]))
    as [[s [Hs Hc]] Heq].
  - exists (baas_getMeetingData "bot-404"). split; reflexivity.
  - exists (baas_getMeetingData "bot-404"). split; reflexivity.
  - split; [ | exact Heq ].
    simpl in Hs. injection Hs as <-. exact Hc.
Defined.

(* ===================================================================== *)
(** ** The shape of the envelope *)
(* ===================================================================== *)

Lemma handler_answers (t : Tool) (a : Args t) (client : BaasClient) :
  exists result,
    completion_of (handler t a) client = Return result /\ text_envelope result.
Proof.
  unfold text_envelope.
  destruct t; open_args a; run_handler; repeat case_match;
    eexists; (split; [ reflexivity | ]); simpl;
    (split; [ discriminate | split; [ repeat constructor | eexists; reflexivity ] ]).
Qed.

(** [JSON.stringify] returns [undefined] for [undefined] and for a symbol,
    and for nothing else. *)
Lemma stringify_undefined (value : Value) :
  JSON_stringify value = Return None <->
  value = JUndefined \/ exists description, value = JSymbol description.
Proof.
  unfold JSON_stringify. split.
  - destruct value as [ | | [ | ] | [ | | | ] | | | | items | members | | ];
      simpl; try discriminate; eauto.
    + repeat case_match; discriminate.
    + repeat case_match; discriminate.
  - intros [-> | [description ->]]; reflexivity.
Qed.



(* ===================================================================== *)
(** ** Status sentences *)
(* ===================================================================== *)

(** C3, as the spec states it, fails: [deleteData] with a backend that
    resolves [false] answers "Successfully deleted meeting data". *)
Lemma deleteData_false_reads_success :
  let a : Args deleteData := ("bot-123", tt) in
  let client : BaasClient := fun _ => Resolved (JBool false) in
  resolves deleteData a client (JBool false)
  /\ completion_of (handler deleteData a) client
     = Return {| content :=
                   [ {| type := "text"; text := Some "Successfully deleted meeting data" |} ];
                 isError := None |}
  /\ ~ sentence_chosen_by deleteData a client false.
Proof.
  intros a client. split; [ | split ].
  - exists (baas_deleteData "bot-123"). split; reflexivity.
  - reflexivity.
  - intros [s [Hs Hprefix]].
    vm_compute in Hs. injection Hs as <-.
    vm_compute in Hprefix. discriminate Hprefix.
Qed.

(** C3, amended. When the backend call resolves, the envelope is not
    flagged and holds one fixed sentence: for [leaveMeeting] and
    [deleteCalendar] the "Successfully ..." sentence when the value is
    true and the "Failed to ..." sentence when it is false; for
    [deleteData] and [resyncAllCalendars] the "Successfully ..." sentence
    whatever the value. *)
Theorem status_sentence_rendered
    (t : Tool) (a : Args t) (client : BaasClient) (status : Value) :
  In t [leaveMeeting; deleteData; deleteCalendar; resyncAllCalendars] ->
  resolves t a client status ->
  completion_of (handler t a) client
  = Return {| content := [ {| type := "text"; text := Some (status_sentence t status) |} ];
              isError := None |}.
Proof.
  intros Ht H.
  simpl in Ht.
  destruct Ht as [<- | [<- | [<- | [<- | []]]]];
    open_args a; run_handler; use_settled H; reflexivity.
Qed.

Lemma status_sentence_rendered_witness :
  let client : BaasClient := fun _ => Resolved (JBool false) in
  completion_of (handler deleteCalendar ("cal-1", tt)) client
  = Return {| content := [ {| type := "text"; text := Some "Failed to delete calendar" |} ];
              isError := None |}
  /\ completion_of (handler resyncAllCalendars tt) client
     = Return {| content :=
                   [ {| type := "text"; text := Some "Successfully resynced all calendars" |} ];
                 isError := None |}.
Proof.
  intros client. split.
  - apply (status_sentence_rendered deleteCalendar ("cal-1", tt) client (JBool false)).
    + simpl. auto.
    + exists (baas_deleteCalendar "cal-1"). split; reflexivity.
  - apply (status_sentence_rendered resyncAllCalendars tt client (JBool false)).
    + simpl. auto.
    + exists baas_resyncAllCalendars. split; reflexivity.
Defined.

(** For the two handlers that read the value, the spec's reading holds. *)
Lemma leaveMeeting_sentence_chosen (botId : string) (client : BaasClient) (status : bool) :
  resolves leaveMeeting (botId, tt) client (JBool status) ->
  sentence_chosen_by leaveMeeting (botId, tt) client status.
Proof.
  intros H. unfold sentence_chosen_by. run_handler. use_settled H.
  eexists. split; [ reflexivity | ]. destruct status; reflexivity.
Qed.

Lemma deleteCalendar_sentence_chosen (uuid : string) (client : BaasClient) (status : bool) :
  resolves deleteCalendar (uuid, tt) client (JBool status) ->
  sentence_chosen_by deleteCalendar (uuid, tt) client status.
Proof.
  intros H. unfold sentence_chosen_by. run_handler. use_settled H.
  eexists. split; [ reflexivity | ]. destruct status; reflexivity.
Qed.

(** C4. [leaveMeeting] with a backend that resolves [false] returns the
    sentence "Failed to leave meeting" in an envelope without [isError];
    with a backend that rejects it returns the same sentence with
    [isError = true]. *)
Theorem leaveMeeting_false_is_not_an_error
    (botId : string) (client client' : BaasClient) (reason : Value) :
  resolves leaveMeeting (botId, tt) client (JBool false) ->
  rejects leaveMeeting (botId, tt) client' reason ->
  completion_of (handler leaveMeeting (botId, tt)) client
  = Return {| content := [ {| type := "text"; text := Some "Failed to leave meeting" |} ];
              isError := None |}
  /\ completion_of (handler leaveMeeting (botId, tt)) client'
     = Return {| content := [ {| type := "text"; text := Some "Failed to leave meeting" |} ];
                 isError := Some true |}.
Proof.
  intros H H'. run_handler. use_settled H. use_settled H'.
  split; reflexivity.
Qed.

Lemma leaveMeeting_false_is_not_an_error_witness :
  completion_of (handler leaveMeeting ("bot-123", tt)) (fun _ => Resolved (JBool false))
  = Return {| content := [ {| type := "text"; text := Some "Failed to leave meeting" |} ];
              isError := None |}
  /\ completion_of (handler leaveMeeting ("bot-123", tt))
       (fun _ => Rejected (JStr "bot not found"))
     = Return {| content := [ {| type := "text"; text := Some "Failed to leave meeting" |} ];
                 isError := Some true |}.
Proof.
  apply (leaveMeeting_false_is_not_an_error "bot-123"
           (fun _ => Resolved (JBool false))
           (fun _ => Rejected (JStr "bot not found"))
           (JStr "bot not found")).
  - exists (baas_leaveMeeting "bot-123"). split; reflexivity.
  - exists (baas_leaveMeeting "bot-123"). split; reflexivity.
Defined.

(* ===================================================================== *)
(** ** What reaches the backend *)
(* ===================================================================== *)

(** C8. [joinMeeting({meetingUrl: "https://meet.example/abc", botName:
    "Notetaker", reserved: false})] with a backend call that resolves to
    ["bot-123"] returns the one text block "Successfully joined meeting
    with bot ID: bot-123", and no [isError]. *)
Theorem joinMeeting_scenario (client : BaasClient) :
  resolves joinMeeting
    ("https://meet.example/abc", ("Notetaker", (None, (None, (None, (false, tt))))))
    client (JStr "bot-123") ->
  completion_of
    (handler joinMeeting
       ("https://meet.example/abc", ("Notetaker", (None, (None, (None, (false, tt)))))))
    client
  = Return {| content :=
                [ {| type := "text";
                     text := Some "Successfully joined meeting with bot ID: bot-123" |} ];
              isError := None |}.
Proof.
  intros H. run_handler. use_settled H. reflexivity.
Qed.

Lemma joinMeeting_scenario_witness :
  completion_of
    (handler joinMeeting
       ("https://meet.example/abc", ("Notetaker", (None, (None, (None, (false, tt)))))))
    (fun _ => Resolved (JStr "bot-123"))
  = Return {| content :=
                [ {| type := "text";
                     text := Some "Successfully joined meeting with bot ID: bot-123" |} ];
              isError := None |}.
Proof.
  apply (joinMeeting_scenario (fun _ => Resolved (JStr "bot-123"))).
  exists (baas_joinMeeting "https://meet.example/abc" "Notetaker" None None None false).
  split; reflexivity.
Defined.

(** C9. [updateCalendar] forwards [platform: "Microsoft"] when the
    argument is omitted; it forwards "Google" for the value "Google", and
    "Microsoft" in every other case. *)
Theorem updateCalendar_platform_defaults_to_Microsoft
    (uuid : string) (oauthClientId oauthClientSecret oauthRefreshToken : option string)
    (platform rawCalendarId : option string) (client : BaasClient) :
  let forwarded (p : option string) :=
    calls_of
      (handler updateCalendar
         (uuid, (oauthClientId, (oauthClientSecret, (oauthRefreshToken,
          (p, (rawCalendarId, tt)))))))
      client in
  let call (p : string) :=
    baas_updateCalendar uuid oauthClientId oauthClientSecret oauthRefreshToken
      (Some p) rawCalendarId in
  forwarded None = [call "Microsoft"]
  /\ forwarded (Some "Google") = [call "Google"]
  /\ (platform <> Some "Google" -> forwarded platform = [call "Microsoft"]).
Proof.
  intros forwarded call. subst forwarded call. run_handler.
  split; [ reflexivity | split; [ reflexivity | ] ].
  intros Hne. destruct platform as [p | ]; simpl; [ | reflexivity ].
  destruct (String.eqb_spec p "Google") as [-> | _]; [ congruence | reflexivity ].
Qed.

Lemma updateCalendar_platform_defaults_to_Microsoft_witness :
  calls_of
    (handler updateCalendar ("cal-1", (None, (None, (None, (Some "Microsoft", (None, tt)))))))
    (fun _ => Resolved JNull)
  = [ baas_updateCalendar "cal-1" None None None (Some "Microsoft") None ]
  /\ calls_of
       (handler updateCalendar ("cal-1", (None, (None, (None, (None, (None, tt)))))))
       (fun _ => Resolved JNull)
     = [ baas_updateCalendar "cal-1" None None None (Some "Microsoft") None ].
Proof.
  destruct (updateCalendar_platform_defaults_to_Microsoft
              "cal-1" None None None (Some "Microsoft") None (fun _ => Resolved JNull))
    as [Hnone [_ Hother]].
  split; [ apply Hother; discriminate | exact Hnone ].
Defined.

(** C10. [joinMeeting] never forwards [speechToText] as a boolean: for
    [true] it forwards the object [{provider: "Default"}], for [false]
    and for an omitted field it forwards [undefined]; the invocation with
    [false] and the one without the field are the same at the backend
    boundary and after it. *)
Theorem joinMeeting_speechToText_forwarding
    (meetingUrl botName : string) (webhookUrl recordingMode : option string)
    (reserved : bool) (client : BaasClient) :
  let invoke (speechToText : option bool) :=
    handler joinMeeting
      (meetingUrl, (botName, (webhookUrl, (recordingMode, (speechToText, (reserved, tt)))))) in
  let call (config : option SpeechToText) :=
    baas_joinMeeting meetingUrl botName webhookUrl recordingMode config reserved in
  calls_of (invoke (Some true)) client = [call (Some {| provider := "Default" |})]
  /\ calls_of (invoke (Some false)) client = [call None]
  /\ calls_of (invoke None) client = [call None]
  /\ run (invoke (Some false)) client = run (invoke None) client.
Proof.
  intros invoke call. subst invoke call. run_handler.
  repeat split; reflexivity.
Qed.

Lemma platform_defaulted_elsewhere (t : Tool) (a : Args t) :
  t <> updateCalendar -> platform_defaulted t a = a.
Proof. destruct t; intros Ht; solve [ reflexivity | congruence ]. Qed.

(** C5, as the spec states it, fails: [updateCalendar] called without a
    [platform] is valid, and the backend receives [platform: "Microsoft"],
    which the caller never passed. *)
Lemma updateCalendar_invents_platform :
  let a : Args updateCalendar := ("cal-1", (None, (None, (None, (None, (None, tt)))))) in
  let client : BaasClient := fun _ => Resolved (JObj []) in
  conforms_shape (inputSchema updateCalendar) a
  /\ calls_of (handler updateCalendar a) client
     = [ baas_updateCalendar "cal-1" None None None (Some "Microsoft") None ]
  /\ forwarded_unchanged updateCalendar a
     = Some [ baas_updateCalendar "cal-1" None None None None None ]
  /\ Some (calls_of (handler updateCalendar a) client)
     <> forwarded_unchanged updateCalendar a.
Proof.
  intros a client. split; [ | split; [ | split ] ].
  - simpl. tauto.
  - reflexivity.
  - reflexivity.
  - intros H. vm_compute in H. discriminate H.
Qed.

(** C5, amended. For every tool other than [joinMeeting], the validated
    argument values are forwarded to the backend client unchanged, but
    for the [platform] of [updateCalendar], which goes out as "Google" if
    it is "Google" and as "Microsoft" otherwise. In [createCalendar] the
    same conditional leaves a validated [platform] as it is. *)
Theorem arguments_forwarded_up_to_platform
    (t : Tool) (a : Args t) (client : BaasClient) :
  t <> joinMeeting ->
  conforms_shape (inputSchema t) a ->
  Some (calls_of (handler t a) client) = forwarded_unchanged t (platform_defaulted t a).
Proof.
  intros Ht Ha.
  destruct t; try congruence; open_args a; run_handler; try reflexivity.
  (* createCalendar: the platform is one of the two values of the enum *)
  simpl in Ha. destruct Ha as (_ & _ & _ & [<- | [<- | []]] & _); reflexivity.
Qed.

Lemma arguments_forwarded_up_to_platform_witness :
  let client : BaasClient := fun _ => Resolved (JObj []) in
  Some (calls_of
          (handler createCalendar
             ("id", ("secret", ("token", ("Microsoft", ("primary", tt))))))
          client)
  = Some [ baas_createCalendar "id" "secret" "token" "Microsoft" "primary" ]
  /\ Some (calls_of
             (handler updateCalendar ("cal-1", (None, (None, (None, (None, (None, tt)))))))
             client)
     = Some [ baas_updateCalendar "cal-1" None None None (Some "Microsoft") None ].
Proof.
  intros client. split.
  - apply (arguments_forwarded_up_to_platform createCalendar
             ("id", ("secret", ("token", ("Microsoft", ("primary", tt))))) client).
    + discriminate.
    + simpl. tauto.
  - apply (arguments_forwarded_up_to_platform updateCalendar
             ("cal-1", (None, (None, (None, (None, (None, tt)))))) client).
    + discriminate.
    + simpl. tauto.
Defined.

(** The conditional of [createCalendar] is there all the same: on a
    string that is not "Google" it answers "Microsoft". Validation keeps
    such strings away from it. *)
Lemma createCalendar_platform_conditional
    (oauthClientId oauthClientSecret oauthRefreshToken platform rawCalendarId : string)
    (client : BaasClient) :
  platform <> "Google" ->
  calls_of
    (handler createCalendar
       (oauthClientId, (oauthClientSecret, (oauthRefreshToken,
        (platform, (rawCalendarId, tt))))))
    client
  = [ baas_createCalendar oauthClientId oauthClientSecret oauthRefreshToken
        "Microsoft" rawCalendarId ].
Proof.
  intros Hne. run_handler.
  destruct (String.eqb_spec platform "Google"); [ contradiction | reflexivity ].
Qed.

(* ===================================================================== *)
(** ** Validation *)
(* ===================================================================== *)

Section Validation.

Variable raw : RawArgs.

Lemma lookup_name (t : Tool) : lookup (name t) = Some t.
Proof. destruct t; reflexivity. Qed.

(** Only [.optional()] accepts a missing key. *)
Lemma parse_field_missing (z : ZodType) :
  is_optional z = false -> parse_field z None = inl Required.
Proof. destruct z; simpl; intros H; solve [ reflexivity | discriminate H ]. Qed.

(** An enum accepts the listed strings and no other. *)
Lemma parse_field_enum_outside (values : list string) (s : string) :
  ~ In s values ->
  parse_field (z_enum values) (Some (JStr s)) = inl InvalidEnumValue.
Proof.
  intros Hout. simpl.
  destruct (existsb (String.eqb s) values) eqn:E; [ | reflexivity ].
  apply existsb_exists in E as [x [Hx Heq]].
  apply String.eqb_eq in Heq. subst x. contradiction.
Qed.

Lemma parse_field_optional_enum_outside (values : list string) (s : string) :
  ~ In s values ->
  parse_field (z_optional (z_enum values)) (Some (JStr s)) = inl InvalidEnumValue.
Proof.
  intros Hout.
  change (parse_field (z_optional (z_enum values)) (Some (JStr s)))
    with (match parse_field (z_enum values) (Some (JStr s)) with
          | inl issue => inl issue
          | inr a => inr (Some a)
          end : Issue + infer (z_optional (z_enum values))).
  rewrite (parse_field_enum_outside values s Hout). reflexivity.
Qed.

(** One field that fails is enough for the bag to fail. *)
Lemma parse_shape_field_fails (s : Shape) (k : string) (z : ZodType) (issue : Issue) :
  In (k, z) s ->
  parse_field z (raw !! k) = inl issue ->
  exists field issue', parse_shape s raw = Invalid field issue'.
Proof.
  induction s as [ | [k0 z0] rest IH ]; intros Hin Hfail.
  - destruct Hin.
  - simpl.
    destruct (parse_field z0 (raw !! k0)) as [issue0 | a0] eqn:E0.
    + eauto.
    + destruct Hin as [Hhead | Htail].
      * injection Hhead as -> ->. rewrite Hfail in E0. discriminate E0.
      * destruct (IH Htail Hfail) as (field & issue' & ->). eauto.
Qed.

Lemma required_field_in_shape (s : Shape) (k : string) :
  In k (required_fields s) -> exists z, In (k, z) s /\ is_optional z = false.
Proof.
  unfold required_fields. intros Hin.
  apply in_map_iff in Hin as [[k' z] [Hk Hf]]. simpl in Hk. subst k'.
  apply filter_In in Hf as [Hin Hreq]. simpl in Hreq.
  exists z. split; [ exact Hin | ].
  destruct (is_optional z); [ discriminate Hreq | reflexivity ].
Qed.

Lemma parse_shape_missing_required (s : Shape) (k : string) :
  In k (required_fields s) ->
  raw !! k = None ->
  exists field issue, parse_shape s raw = Invalid field issue.
Proof.
  intros Hreq Hmissing.
  destruct (required_field_in_shape s k Hreq) as [z [Hin Hz]].
  apply (parse_shape_field_fails s k z Required Hin).
  rewrite Hmissing. apply parse_field_missing, Hz.
Qed.

(** What validation lets through keeps the promise of the annotations. *)
Lemma parse_field_conforms (z : ZodType) (v : option Value) (a : infer z) :
  parse_field z v = inr a -> conforms z a.
Proof.
  revert v a. induction z as [ | | | values | | inner IH ]; intros v a H; simpl; try exact I.
  - simpl in H. destruct v as [[ | | | | | | s | | | | ] | ]; try discriminate H.
    destruct (existsb (String.eqb s) values) eqn:E; [ | discriminate H ].
    injection H as <-.
    apply existsb_exists in E as [x [Hx Heq]].
    apply String.eqb_eq in Heq. subst x. exact Hx.
  - simpl in H. destruct v as [x | ].
    + destruct (parse_field inner (Some x)) as [issue | b] eqn:E; [ discriminate H | ].
      injection H as <-. apply (IH (Some x)), E.
    + injection H as <-. exact I.
Qed.

Lemma parse_shape_conforms (s : Shape) (a : infer_shape s) :
  parse_shape s raw = Valid a -> conforms_shape s a.
Proof.
  induction s as [ | [k z] rest IH ]; intros H; simpl.
  - exact I.
  - simpl in H.
    destruct (parse_field z (raw !! k)) as [issue | x] eqn:Ex; [ discriminate H | ].
    destruct (parse_shape rest raw) as [b | field issue] eqn:Eb; [ | discriminate H ].
    injection H as <-. simpl. split.
    + apply (parse_field_conforms z (raw !! k)), Ex.
    + apply IH. reflexivity.
Qed.

(** A bag that fails validation is answered without the handler: the
    invocation is the return of an error envelope and nothing else. *)
Lemma dispatch_invalid (t : Tool) (field : string) (issue : Issue) :
  parse_shape (inputSchema t) raw = Invalid field issue ->
  exists message, dispatch (name t) raw = ret (error_envelope message).
Proof.
  intros H. unfold dispatch. rewrite lookup_name, H. eauto.
Qed.

(** A bag that passes reaches the handler with arguments that conform. *)
Lemma dispatch_valid (t : Tool) (a : Args t) :
  parse_shape (inputSchema t) raw = Valid a ->
  dispatch (name t) raw = handler t a /\ conforms_shape (inputSchema t) a.
Proof.
  intros H. split.
  - unfold dispatch. rewrite lookup_name, H. reflexivity.
  - apply parse_shape_conforms, H.
Qed.

End Validation.

(** C6. A [createCalendar] bag whose [platform] is a string other than
    "Google" and "Microsoft" is answered with an error envelope at
    validation: the handler is not run and [baasClient.createCalendar],
    like every other backend method, is not called. *)
Theorem createCalendar_rejects_unknown_platform
    (raw : RawArgs) (platform : string) (client : BaasClient) :
  raw !! "platform" = Some (JStr platform) ->
  platform <> "Google" ->
  platform <> "Microsoft" ->
  (exists message, dispatch "createCalendar" raw = ret (error_envelope message))
  /\ (exists result,
         completion_of (dispatch "createCalendar" raw) client = Return result
         /\ isError result = Some true)
  /\ calls_of (dispatch "createCalendar" raw) client = [].
Proof.
  intros Hraw HG HM.
  assert (Hfail : exists field issue,
             parse_shape (inputSchema createCalendar) raw = Invalid field issue).
  { apply (parse_shape_field_fails raw (inputSchema createCalendar)
             "platform" (z_enum ["Google"; "Microsoft"]) InvalidEnumValue).
    - simpl. tauto.
    - rewrite Hraw. apply parse_field_enum_outside.
      simpl. intros [H | [H | []]]; congruence. }
  destruct Hfail as (field & issue & Hfail).
  destruct (dispatch_invalid raw createCalendar field issue Hfail) as [message Hd].
  change (name createCalendar) with "createCalendar" in Hd.
  rewrite Hd. split; [ eauto | split; [ eexists; split; reflexivity | reflexivity ] ].
Qed.

Lemma createCalendar_rejects_unknown_platform_witness :
  let raw : RawArgs :=
    list_to_map
      [ ("oauthClientId", JStr "id"); ("oauthClientSecret", JStr "secret");
        ("oauthRefreshToken", JStr "token"); ("platform", JStr "Outlook");
        ("rawCalendarId", JStr "primary") ] in
  let client : BaasClient := fun _ => Resolved (JObj [("uuid", JStr "cal-1")]) in
  (exists result,
      completion_of (dispatch "createCalendar" raw) client = Return result
      /\ isError result = Some true)
  /\ calls_of (dispatch "createCalendar" raw) client = [].
Proof.
  intros raw client.
  apply (createCalendar_rejects_unknown_platform raw "Outlook" client).
  - reflexivity.
  - discriminate.
  - discriminate.
Defined.

(** C7. A bag that misses a required field of a tool's schema is answered
    with an envelope whose [isError] is [true]; the handler is not run and
    the backend client is not called. *)
Theorem missing_required_field_is_rejected
    (t : Tool) (field : string) (raw : RawArgs) (client : BaasClient) :
  In field (required_fields (inputSchema t)) ->
  raw !! field = None ->
  (exists message, dispatch (name t) raw = ret (error_envelope message))
  /\ (exists result,
         completion_of (dispatch (name t) raw) client = Return result
         /\ isError result = Some true)
  /\ calls_of (dispatch (name t) raw) client = [].
Proof.
  intros Hreq Hraw.
  destruct (parse_shape_missing_required raw (inputSchema t) field Hreq Hraw)
    as (f & issue & Hfail).
  destruct (dispatch_invalid raw t f issue Hfail) as [message Hd].
  rewrite Hd. split; [ eauto | split; [ eexists; split; reflexivity | reflexivity ] ].
Qed.

(** [joinMeeting] without [meetingUrl]. *)
Lemma missing_required_field_is_rejected_witness :
  let raw : RawArgs :=
    list_to_map [ ("botName", JStr "Notetaker"); ("reserved", JBool false) ] in
  let client : BaasClient := fun _ => Resolved (JStr "bot-123") in
  (exists result,
      completion_of (dispatch "joinMeeting" raw) client = Return result
      /\ isError result = Some true)
  /\ calls_of (dispatch "joinMeeting" raw) client = [].
Proof.
  intros raw client.
  apply (missing_required_field_is_rejected joinMeeting "meetingUrl" raw client).
  - simpl. tauto.
  - reflexivity.
Defined.

(** Whatever the name and the bag, the dispatcher answers with a
    well-formed envelope: unknown tool, invalid bag and handler all end
    there. *)
Lemma dispatch_answers (toolName : string) (raw : RawArgs) (client : BaasClient) :
  exists result,
    completion_of (dispatch toolName raw) client = Return result /\ text_envelope result.
Proof.
  unfold dispatch.
  destruct (lookup toolName) as [t | ].
  - destruct (parse_shape (inputSchema t) raw) as [a | field issue].
    + apply handler_answers.
    + eexists. split; [ reflexivity | ].
      unfold text_envelope. simpl.
      split; [ discriminate | split; [ repeat constructor | eexists; reflexivity ] ].
  - eexists. split; [ reflexivity | ].
    unfold text_envelope. simpl.
    split; [ discriminate | split; [ repeat constructor | eexists; reflexivity ] ].
Qed.

(** An unknown name is answered with an error envelope, and nothing runs. *)
Lemma dispatch_unknown_tool (toolName : string) (raw : RawArgs) (client : BaasClient) :
  lookup toolName = None ->
  run (dispatch toolName raw) client
  = (untouched, Return (error_envelope ("Unknown tool: " +:+ toolName))).
Proof. intros H. unfold dispatch. rewrite H. reflexivity. Qed.

(* ===================================================================== *)
(** ** The scenarios of the spec, run *)
(* ===================================================================== *)

Example echo_ping :
  run (dispatch "echo" {[ "message" := JStr "ping" ]}) (fun _ => Rejected JNull)
  = (untouched,
     Return {| content := [ {| type := "text"; text := Some "Tool echo: ping" |} ];
               isError := None |}).
Proof. reflexivity. Qed.

Example getMeetingData_rejected :
  run (dispatch "getMeetingData" {[ "botId" := JStr "bot-404" ]})
      (fun _ => Rejected (JStr "404"))
  = ({| backend_calls := [ baas_getMeetingData "bot-404" ];
        console := [ ("Failed to get meeting data:", JStr "404") ] |},
     Return {| content := [ {| type := "text"; text := Some "Failed to get meeting data" |} ];
               isError := Some true |}).
Proof. reflexivity. Qed.

Example getCalendar_prints_the_record :
  completion_of (dispatch "getCalendar" {[ "uuid" := JStr "cal-1" ]})
    (fun _ => Resolved (JObj [ ("uuid", JStr "cal-1"); ("events", JArr [ JNum (Finite false 1 1); JNum (Finite false 25 1) ]) ]))
  = Return
      {| content :=
           [ {| type := "text";
                text := Some ("{" +:+ newline
                        +:+ "  " +:+ dquote +:+ "uuid" +:+ dquote +:+ ": "
                        +:+ dquote +:+ "cal-1" +:+ dquote +:+ "," +:+ newline
                        +:+ "  " +:+ dquote +:+ "events" +:+ dquote +:+ ": [" +:+ newline
                        +:+ "    1," +:+ newline
                        +:+ "    2.5" +:+ newline
                        +:+ "  ]" +:+ newline
                        +:+ "}") |} ];
         isError := None |}.
Proof. reflexivity. Qed.

Example unknown_tool :
  run (dispatch "joinMeetings" ∅) (fun _ => Resolved JNull)
  = (untouched, Return (error_envelope "Unknown tool: joinMeetings")).
Proof. reflexivity. Qed.

(* ===================================================================== *)
(** ** Further properties of the handlers *)
(* ===================================================================== *)

(** *** The backend is called once *)

(** Whatever the client answers, a handler calls the backend once, and
    [echo]'s not at all: a rejection is not retried, and which call is made
    does not depend on how calls settle. *)
Theorem one_backend_call (t : Tool) (a : Args t) (client client' : BaasClient) :
  length (calls_of (handler t a) client) = match t with echo => 0%nat | _ => 1%nat end
  /\ calls_of (handler t a) client' = calls_of (handler t a) client.
Proof. destruct t; open_args a; run_traced; split; reflexivity. Qed.

Lemma call_names_its_tool (t : Tool) (a : Args t) (client : BaasClient) (call : BaasCall) :
  calls_of (handler t a) client = [call] -> tool_of_call call = t.
Proof.
  intros H. destruct t; open_args a; run_traced;
    first [ injection H as <-; reflexivity | discriminate H ].
Qed.

(** No two tools share a backend call: if the invocations of two tools
    reach the backend with the same call, they are the same tool. *)
Theorem tools_call_distinct_methods
    (t1 t2 : Tool) (a1 : Args t1) (a2 : Args t2) (client1 client2 : BaasClient)
    (call : BaasCall) :
  calls_of (handler t1 a1) client1 = [call] ->
  calls_of (handler t2 a2) client2 = [call] ->
  t1 = t2.
Proof.
  intros H1 H2.
  rewrite <- (call_names_its_tool t1 a1 client1 call H1).
  apply (call_names_its_tool t2 a2 client2 call H2).
Qed.

Lemma tools_call_distinct_methods_witness :
  calls_of (handler getCalendar ("cal-1", tt)) (fun _ => Resolved JNull)
  = [ baas_getCalendar "cal-1" ]
  /\ calls_of (handler getCalendar ("cal-1", tt)) (fun _ => Rejected JNull)
     = [ baas_getCalendar "cal-1" ]
  /\ getCalendar = getCalendar.
Proof.
  split; [ reflexivity | split; [ reflexivity | ] ].
  apply (tools_call_distinct_methods getCalendar getCalendar
           ("cal-1", tt) ("cal-1", tt)
           (fun _ => Resolved JNull) (fun _ => Rejected JNull)
           (baas_getCalendar "cal-1")); reflexivity.
Defined.

(** *** What is logged *)

(** A rejection is logged once, under the label of the tool, with the
    reason as the backend gave it. *)
Theorem rejection_is_logged
    (t : Tool) (a : Args t) (client : BaasClient) (reason : Value) :
  rejects t a client reason ->
  exists label,
    log_label t = Some label /\ console_of (handler t a) client = [(label, reason)].
Proof.
  intros H. destruct t; open_args a; run_traced; use_settled H;
    eexists; split; reflexivity.
Qed.

Lemma rejection_is_logged_witness :
  console_of (handler deleteData ("bot-123", tt))
    (fun _ => Rejected (JObj [("status", JNum (Finite false 5 3))]))
  = [ ("Failed to delete data:", JObj [("status", JNum (Finite false 5 3))]) ].
Proof.
  destruct (rejection_is_logged deleteData ("bot-123", tt)
              (fun _ => Rejected (JObj [("status", JNum (Finite false 5 3))]))
              (JObj [("status", JNum (Finite false 5 3))])) as [label [Hlabel Hconsole]].
  - exists (baas_deleteData "bot-123"). split; reflexivity.
  - simpl in Hlabel. injection Hlabel as <-. exact Hconsole.
Defined.

(** But for [deleteData], the label logged is the sentence of the envelope
    with a colon after it. *)
Theorem log_label_follows_failure_sentence
    (t : Tool) (a : Args t) (client : BaasClient) (reason : Value) :
  rejects t a client reason ->
  t <> deleteData ->
  exists sentence,
    completion_of (handler t a) client
    = Return {| content := [ {| type := "text"; text := Some sentence |} ];
                isError := Some true |}
    /\ console_of (handler t a) client = [(sentence +:+ ":", reason)].
Proof.
  intros H Ht. destruct t; try congruence; open_args a; run_traced; use_settled H;
    eexists; split; reflexivity.
Qed.

Lemma log_label_follows_failure_sentence_witness :
  exists sentence,
    completion_of (handler listEvents ("cal-1", tt)) (fun _ => Rejected (JStr "timeout"))
    = Return {| content := [ {| type := "text"; text := Some sentence |} ];
                isError := Some true |}
    /\ console_of (handler listEvents ("cal-1", tt)) (fun _ => Rejected (JStr "timeout"))
       = [ (sentence +:+ ":", JStr "timeout") ].
Proof.
  apply (log_label_follows_failure_sentence listEvents ("cal-1", tt)
           (fun _ => Rejected (JStr "timeout")) (JStr "timeout")).
  - exists (baas_listEvents "cal-1"). split; reflexivity.
  - discriminate.
Defined.

(** [deleteData] is the exception: its log line and its envelope name
    the failure differently. *)
Lemma deleteData_label_differs (botId : string) (client : BaasClient) (reason : Value) :
  rejects deleteData (botId, tt) client reason ->
  completion_of (handler deleteData (botId, tt)) client
  = Return {| content := [ {| type := "text"; text := Some "Failed to delete meeting data" |} ];
              isError := Some true |}
  /\ console_of (handler deleteData (botId, tt)) client
     = [ ("Failed to delete data:", reason) ].
Proof. intros H. run_traced. use_settled H. split; reflexivity. Qed.

(** *** The error flag *)

(** The hypotheses on one backend call, brought together. *)
Ltac same_call :=
  repeat match goal with
         | H : [_] = [_] |- _ => injection H as <-
         | H : [] = [_] |- _ => discriminate H
         | H : calls_of _ _ = [_] |- _ => discriminate H
         | H1 : ?client ?call = _, H2 : ?client ?call = _ |- _ =>
             rewrite H1 in H2;
             first [ discriminate H2 | injection H2 as <- | injection H2 as -> ]
         end.

(** The envelope is flagged exactly when the [catch] branch ran: the
    backend call rejected, or it resolved and printing the value threw.
    Then one line is logged, holding what was caught. Otherwise [isError]
    is absent, never [false], and nothing is logged. *)
Theorem flagged_iff_caught (t : Tool) (a : Args t) (client : BaasClient) :
  exists result,
    completion_of (handler t a) client = Return result
    /\ ((isError result = Some true
         /\ exists caught label,
              log_label t = Some label
              /\ console_of (handler t a) client = [(label, caught)]
              /\ (rejects t a client caught
                  \/ exists value,
                       resolves t a client value /\ thrown_after t value = Some caught))
        \/ (isError result = None
            /\ console_of (handler t a) client = []
            /\ (forall reason, ~ rejects t a client reason)
            /\ (forall value, resolves t a client value -> thrown_after t value = None))).
Proof.
  destruct t; open_args a; run_traced; repeat case_match;
    eexists; (split; [ reflexivity | ]);
    first
      [ (* the call resolved and the value was printed *)
        right; split; [ reflexivity | ]; split; [ reflexivity | ]; split;
        [ intros reason [call [Hc Hs]]; same_call
        | intros value' [call [Hc Hs]]; same_call; unfold thrown_after, thrown;
          try match goal with H : _ = Return _ |- _ => rewrite H end; reflexivity ]
      | (* the call resolved and printing threw *)
        left; split; [ reflexivity | ]; eexists; eexists;
        split; [ reflexivity | ]; split; [ reflexivity | ];
        right; eexists; split; [ eexists; split; [ reflexivity | eassumption ] | ];
        unfold thrown_after, thrown;
        match goal with H : _ = Throw _ |- _ => rewrite H end; reflexivity
      | (* the call rejected *)
        left; split; [ reflexivity | ]; eexists; eexists;
        split; [ reflexivity | ]; split; [ reflexivity | ];
        left; eexists; split; [ reflexivity | eassumption ] ].
Qed.

(** A backend call that went through, answered as a failure: when the
    call has resolved and printing the value throws, the handler returns
    the failure sentence of the tool with [isError = true], as for a
    rejection, and logs what was thrown. *)
Theorem unprintable_value_reads_as_failure
    (t : Tool) (a : Args t) (client : BaasClient) (value error : Value) :
  resolves t a client value ->
  thrown_after t value = Some error ->
  exists sentence label,
    failure_sentence t = Some sentence
    /\ log_label t = Some label
    /\ completion_of (handler t a) client
       = Return {| content := [ {| type := "text"; text := Some sentence |} ];
                   isError := Some true |}
    /\ console_of (handler t a) client = [(label, error)].
Proof.
  intros H Hthrown.
  destruct t; try discriminate Hthrown; open_args a; run_traced; use_settled H;
    unfold thrown_after, thrown in Hthrown;
    match type of Hthrown with
    | match ?c with _ => _ end = _ => destruct c; [ discriminate Hthrown | ]
    end;
    injection Hthrown as ->; eexists; eexists; repeat split; reflexivity.
Qed.

Lemma unprintable_value_reads_as_failure_witness :
  let client : BaasClient := fun _ => Resolved (JObj [("id", JBigInt 7)]) in
  exists sentence label,
    failure_sentence createCalendar = Some sentence
    /\ log_label createCalendar = Some label
    /\ completion_of
         (handler createCalendar ("id", ("secret", ("token", ("Google", ("primary", tt))))))
         client
       = Return {| content := [ {| type := "text"; text := Some sentence |} ];
                   isError := Some true |}
    /\ console_of
         (handler createCalendar ("id", ("secret", ("token", ("Google", ("primary", tt))))))
         client
       = [(label, TypeError "Do not know how to serialize a BigInt")].
Proof.
  intros client.
  apply (unprintable_value_reads_as_failure createCalendar
           ("id", ("secret", ("token", ("Google", ("primary", tt)))))
           client (JObj [("id", JBigInt 7)])).
  - exists (baas_createCalendar "id" "secret" "token" "Google" "primary").
    split; reflexivity.
  - reflexivity.
Defined.

(** *** What the failure envelope tells *)

Lemma failure_sentence_inj (t1 t2 : Tool) (sentence : string) :
  failure_sentence t1 = Some sentence -> failure_sentence t2 = Some sentence -> t1 = t2.
Proof.
  intros H1 H2. rewrite <- H2 in H1. clear H2.
  destruct t1, t2; simpl in H1; solve [ reflexivity | discriminate H1 ].
Qed.

(** The failure envelope names the tool: two invocations whose backend
    calls reject and that answer with the same envelope are invocations
    of the same tool. *)
Theorem failure_envelope_identifies_tool
    (t1 t2 : Tool) (a1 : Args t1) (a2 : Args t2) (client1 client2 : BaasClient)
    (reason1 reason2 : Value) :
  rejects t1 a1 client1 reason1 ->
  rejects t2 a2 client2 reason2 ->
  completion_of (handler t1 a1) client1 = completion_of (handler t2 a2) client2 ->
  t1 = t2.
Proof.
  intros H1 H2 Heq.
  destruct (rejection_caught t1 a1 client1 reason1 H1) as [s1 [Hs1 Hc1]].
  destruct (rejection_caught t2 a2 client2 reason2 H2) as [s2 [Hs2 Hc2]].
  rewrite Hc1, Hc2 in Heq. injection Heq as ->.
  exact (failure_sentence_inj t1 t2 s2 Hs1 Hs2).
Qed.

Lemma failure_envelope_identifies_tool_witness :
  rejects leaveMeeting ("bot-1", tt) (fun _ => Rejected JNull) JNull
  /\ leaveMeeting = leaveMeeting.
Proof.
  assert (H : rejects leaveMeeting ("bot-1", tt) (fun _ => Rejected JNull) JNull).
  { exists (baas_leaveMeeting "bot-1"). split; reflexivity. }
  split; [ exact H | ].
  apply (failure_envelope_identifies_tool leaveMeeting leaveMeeting
           ("bot-1", tt) ("bot-2", tt)
           (fun _ => Rejected JNull) (fun _ => Rejected (JStr "gone")) JNull (JStr "gone")).
  - exact H.
  - exists (baas_leaveMeeting "bot-2"). split; reflexivity.
  - reflexivity.
Defined.

(** *** What the success envelope holds *)

(** [scheduleRecordEvent] and [unscheduleRecordEvent] answer with their
    fixed "Successfully ..." sentence whatever the backend resolves to:
    the value is bound and never read. *)
Theorem scheduling_ignores_the_resolved_value
    (t : Tool) (a : Args t) (client : BaasClient) (value : Value) :
  In t [scheduleRecordEvent; unscheduleRecordEvent] ->
  resolves t a client value ->
  completion_of (handler t a) client
  = Return {| content :=
                [ {| type := "text";
                     text := Some match t with
                                  | scheduleRecordEvent =>
                                      "Successfully scheduled event recording"
                                  | _ => "Successfully unscheduled event recording"
                                  end |} ];
              isError := None |}.
Proof.
  intros Ht H. simpl in Ht.
  destruct Ht as [<- | [<- | []]]; open_args a; run_traced; use_settled H; reflexivity.
Qed.

Lemma scheduling_ignores_the_resolved_value_witness :
  completion_of
    (handler scheduleRecordEvent ("event-1", ("Notetaker", (None, tt))))
    (fun _ => Resolved (JBool false))
  = Return {| content :=
                [ {| type := "text"; text := Some "Successfully scheduled event recording" |} ];
              isError := None |}.
Proof.
  apply (scheduling_ignores_the_resolved_value scheduleRecordEvent
           ("event-1", ("Notetaker", (None, tt))) (fun _ => Resolved (JBool false))
           (JBool false)).
  - simpl. auto.
  - exists (baas_scheduleRecordEvent "event-1" "Notetaker" None). split; reflexivity.
Defined.

(** When the backend call has resolved and [JSON.stringify] has returned
    for the value, the seven tools that return data answer without
    [isError]: five with what it returned as the text, a string or
    [undefined]; [createCalendar] and [updateCalendar] with it spliced
    after their opening, [undefined] reading "undefined". *)
Theorem data_is_rendered_whole
    (t : Tool) (a : Args t) (client : BaasClient) (value : Value)
    (printed text : option string) :
  rendered_data t printed = Some text ->
  resolves t a client value ->
  JSON_stringify value = Return printed ->
  completion_of (handler t a) client
  = Return {| content := [ {| type := "text"; text := text |} ]; isError := None |}.
Proof.
  intros Hs H Hprinted.
  destruct t; try discriminate Hs; injection Hs as <-;
    open_args a; run_traced; use_settled H; rewrite Hprinted; reflexivity.
Qed.

Lemma data_is_rendered_whole_witness :
  completion_of (handler listCalendars tt)
    (fun _ => Resolved (JArr [ JNum (Finite false 18446744073709552 20); JUndefined ]))
  = Return {| content :=
                [ {| type := "text";
                     text := Some ("[" +:+ newline +:+ "  18446744073709552000,"
                                   +:+ newline +:+ "  null" +:+ newline +:+ "]") |} ];
              isError := None |}.
Proof.
  apply (data_is_rendered_whole listCalendars tt
           (fun _ => Resolved (JArr [ JNum (Finite false 18446744073709552 20); JUndefined ]))
           (JArr [ JNum (Finite false 18446744073709552 20); JUndefined ])
           (Some ("[" +:+ newline +:+ "  18446744073709552000,"
                  +:+ newline +:+ "  null" +:+ newline +:+ "]"))).
  - reflexivity.
  - exists baas_listCalendars. split; reflexivity.
  - reflexivity.
Defined.

(** [joinMeeting] answers with the bot id spliced after its opening, for
    every argument tuple, and two different ids give two different texts. *)
Theorem joinMeeting_reports_the_bot_id
    (a : Args joinMeeting) (client client' : BaasClient) (botId botId' : string) :
  resolves joinMeeting a client (JStr botId) ->
  resolves joinMeeting a client' (JStr botId') ->
  completion_of (handler joinMeeting a) client
  = Return {| content :=
                [ {| type := "text";
                     text := Some ("Successfully joined meeting with bot ID: " +:+ botId) |} ];
              isError := None |}
  /\ (completion_of (handler joinMeeting a) client
      = completion_of (handler joinMeeting a) client' -> botId = botId').
Proof.
  intros H H'. open_args a. run_traced. use_settled H. use_settled H'.
  split; [ reflexivity | ].
  intros Heq. injection Heq as Heq. exact Heq.
Qed.

Lemma joinMeeting_reports_the_bot_id_witness :
  completion_of
    (handler joinMeeting ("https://meet.example/x", ("Bot", (None, (None, (Some true, (true, tt)))))))
    (fun _ => Resolved (JStr "b-7"))
  = Return {| content :=
                [ {| type := "text";
                     text := Some "Successfully joined meeting with bot ID: b-7" |} ];
              isError := None |}.
Proof.
  apply (joinMeeting_reports_the_bot_id
           ("https://meet.example/x", ("Bot", (None, (None, (Some true, (true, tt))))))
           (fun _ => Resolved (JStr "b-7")) (fun _ => Resolved (JStr "b-7")) "b-7" "b-7").
  - exists (baas_joinMeeting "https://meet.example/x" "Bot" None None
              (Some {| provider := "Default" |}) true).
    split; reflexivity.
  - exists (baas_joinMeeting "https://meet.example/x" "Bot" None None
              (Some {| provider := "Default" |}) true).
    split; reflexivity.
Defined.

(** *** Success and failure told apart by the text *)

Lemma lacks_F_app (a b : string) : lacks_F (a +:+ b) = lacks_F a && lacks_F b.
Proof.
  induction a as [ | c a IH ]; [ reflexivity | ].
  change (String c a +:+ b) with (String c (a +:+ b)).
  cbn [lacks_F]. rewrite IH, andb_assoc. reflexivity.
Qed.

Lemma lacks_F_substring (n m : nat) (s : string) :
  lacks_F s = true -> lacks_F (String.substring n m s) = true.
Proof.
  revert n m. induction s as [ | c s IH ]; intros n m Hs.
  - destruct n, m; reflexivity.
  - cbn [lacks_F] in Hs. apply andb_true_iff in Hs as [Hc Hs].
    destruct n as [ | n ]; [ destruct m as [ | m ] | ]; cbn [String.substring].
    + reflexivity.
    + cbn [lacks_F]. rewrite Hc. apply IH, Hs.
    + apply IH, Hs.
Qed.

Lemma lacks_F_zeros (n : nat) : lacks_F (zeros n) = true.
Proof. induction n as [ | n IH ]; [ reflexivity | exact IH ]. Qed.

Lemma lacks_F_pretty_N_go (x : N) (s : string) :
  lacks_F s = true -> lacks_F (pretty_N_go x s) = true.
Proof.
  revert s. induction (N.lt_wf_0 x) as [x _ IH]; intros s Hs.
  assert (x = 0 \/ 0 < x)%N as [-> | Hpos] by lia.
  - rewrite pretty_N_go_0. exact Hs.
  - rewrite pretty_N_go_step by exact Hpos. apply IH.
    + apply N.div_lt; [ exact Hpos | reflexivity ].
    + cbn [lacks_F]. rewrite Hs, andb_true_r.
      unfold pretty_N_char. repeat case_match; reflexivity.
Qed.

Lemma lacks_F_pretty_N (x : N) : lacks_F (pretty x) = true.
Proof.
  unfold pretty, pretty_N. destruct (decide (x = 0%N)); [ reflexivity | ].
  apply lacks_F_pretty_N_go. reflexivity.
Qed.

Lemma lacks_F_pretty_Z (z : Z) : lacks_F (pretty z) = true.
Proof.
  destruct z as [ | p | p ]; unfold pretty, pretty_Z.
  - reflexivity.
  - apply (lacks_F_pretty_N (N.pos p)).
  - rewrite lacks_F_app. apply (lacks_F_pretty_N (N.pos p)).
Qed.

(** [Number::toString] prints digits, a sign, a point, an [e], and the
    words [NaN] and [Infinity]. *)
Lemma lacks_F_Number_toString (x : Number) : lacks_F (Number_toString x) = true.
Proof.
  destruct x as [ | [ | ] | negative | negative s n ]; try reflexivity.
  unfold Number_toString.
  pose proof (lacks_F_pretty_N (N.pos s)) as Hdigits.
  rewrite lacks_F_app. apply andb_true_iff. split; [ destruct negative; reflexivity | ].
  repeat case_match;
    rewrite ?lacks_F_app, ?lacks_F_zeros, ?lacks_F_pretty_Z, ?Hdigits,
            ?(lacks_F_substring _ _ _ Hdigits);
    reflexivity.
Qed.

Lemma lacks_F_opens (s : string) : lacks_F s = true -> ~ opens_with_F s.
Proof.
  destruct s as [ | c s ]; [ intros _ []; fail | ].
  cbn [lacks_F opens_with_F]. intros H ->. discriminate H.
Qed.

(** What [JSON.stringify] prints opens with a quote, a bracket, a brace,
    a digit, a minus sign or a lower-case letter. *)
Lemma serialize_not_F (indent : string) (v : Value) (s : string) :
  serialize indent v = Return (Some s) -> ~ opens_with_F s.
Proof.
  destruct v as [ | | [ | ] | x | | | | items | members | | ]; simpl; intros H;
    try discriminate H;
    try (injection H as <-; simpl; discriminate).
  - assert (s = "null" \/ s = Number_toString x) as [-> | ->].
    { destruct x as [ | | | ]; injection H as <-; auto. }
    + simpl. discriminate.
    + apply lacks_F_opens, lacks_F_Number_toString.
  - repeat case_match; try discriminate H; injection H as <-; simpl; discriminate.
  - repeat case_match; try discriminate H; injection H as <-; simpl; discriminate.
Qed.

(** But for [leaveMeeting] and [deleteCalendar], the text alone tells a
    success from a failure: an envelope without [isError] never holds the
    failure sentence of its tool, whatever the backend call resolved to. *)
Theorem success_text_is_not_the_failure_sentence
    (t : Tool) (a : Args t) (client : BaasClient) (result : ToolResult)
    (block : ContentBlock) :
  t <> leaveMeeting ->
  t <> deleteCalendar ->
  completion_of (handler t a) client = Return result ->
  isError result = None ->
  In block (content result) ->
  text block <> failure_sentence t.
Proof.
  intros Hl Hd Hresult Hflag Hblock.
  destruct t; try congruence; open_args a; run_traced; repeat case_match;
    injection Hresult as <-; simpl in Hflag; try discriminate Hflag;
    simpl in Hblock; destruct Hblock as [<- | []]; simpl;
    try discriminate;
    intros ->;
    match goal with
    | H : JSON_stringify _ = Return (Some _) |- _ =>
        apply serialize_not_F in H; apply H; reflexivity
    end.
Qed.

Lemma success_text_is_not_the_failure_sentence_witness :
  text {| type := "text";
          text := Some (dquote +:+ "Failed to get meeting data" +:+ dquote) |}
  <> failure_sentence getMeetingData.
Proof.
  apply (success_text_is_not_the_failure_sentence getMeetingData ("bot-1", tt)
           (fun _ => Resolved (JStr "Failed to get meeting data"))
           {| content :=
                [ {| type := "text";
                     text := Some (dquote +:+ "Failed to get meeting data" +:+ dquote) |} ];
              isError := None |}).
  - discriminate.
  - discriminate.
  - reflexivity.
  - reflexivity.
  - simpl. auto.
Defined.

(** *** What the answer does not depend on *)

(** The envelope and the log line depend on the tool and on how the
    backend call settled, not on the arguments: no argument of a tool that
    calls the backend (a URL, an OAuth secret) is written into either. *)
Theorem answer_does_not_hold_the_arguments
    (t : Tool) (a a' : Args t) (client client' : BaasClient) (outcome : Settled) :
  settles t a client outcome ->
  settles t a' client' outcome ->
  completion_of (handler t a) client = completion_of (handler t a') client'
  /\ console_of (handler t a) client = console_of (handler t a') client'.
Proof.
  intros H H'.
  destruct t; open_args a; open_args a'; run_traced; use_settled H; use_settled H';
    split; reflexivity.
Qed.

Lemma answer_does_not_hold_the_arguments_witness :
  let client : BaasClient := fun _ => Resolved (JObj [("uuid", JStr "cal-9")]) in
  completion_of
    (handler createCalendar ("id-1", ("secret-1", ("token-1", ("Google", ("primary", tt))))))
    client
  = completion_of
      (handler createCalendar ("id-2", ("secret-2", ("token-2", ("Microsoft", ("work", tt))))))
      client.
Proof.
  intros client.
  apply (answer_does_not_hold_the_arguments createCalendar
           ("id-1", ("secret-1", ("token-1", ("Google", ("primary", tt)))))
           ("id-2", ("secret-2", ("token-2", ("Microsoft", ("work", tt)))))
           client client (Resolved (JObj [("uuid", JStr "cal-9")]))).
  - exists (baas_createCalendar "id-1" "secret-1" "token-1" "Google" "primary").
    split; reflexivity.
  - exists (baas_createCalendar "id-2" "secret-2" "token-2" "Microsoft" "work").
    split; reflexivity.
Defined.

(** An [updateCalendar] that omits [platform] and one that passes
    "Microsoft" are the same invocation: same backend call, same log,
    same envelope. *)
Theorem updateCalendar_omitted_is_Microsoft
    (uuid : string) (oauthClientId oauthClientSecret oauthRefreshToken : option string)
    (rawCalendarId : option string) (client : BaasClient) :
  run (handler updateCalendar
         (uuid, (oauthClientId, (oauthClientSecret, (oauthRefreshToken,
          (None, (rawCalendarId, tt)))))))
      client
  = run (handler updateCalendar
           (uuid, (oauthClientId, (oauthClientSecret, (oauthRefreshToken,
            (Some "Microsoft", (rawCalendarId, tt)))))))
        client.
Proof. reflexivity. Qed.

(** [echo] answers without the backend and without the log, the same
    whatever the client would do, and two different messages get two
    different answers. *)
Theorem echo_is_pure (message message' : string) (client client' : BaasClient) :
  run (handler echo (message, tt)) client
  = (untouched,
     Return {| content := [ {| type := "text"; text := Some ("Tool echo: " +:+ message) |} ];
               isError := None |})
  /\ run (handler echo (message, tt)) client' = run (handler echo (message, tt)) client
  /\ (completion_of (handler echo (message, tt)) client
      = completion_of (handler echo (message', tt)) client -> message = message').
Proof.
  split; [ reflexivity | split; [ reflexivity | ] ].
  intros Heq. injection Heq as Heq. exact Heq.
Qed.

(* ===================================================================== *)
(** ** The catalogue *)
(* ===================================================================== *)

(** Every tool is registered, under a name no other tool has, and
    [capabilities.tools] lists the registered names, each once, in the
    order of registration. *)
Theorem catalogue_is_consistent :
  (forall t, In t registered)
  /\ NoDup (List.map name registered)
  /\ List.map fst capabilities = List.map name registered.
Proof.
  split; [ | split ].
  - intros t. destruct t; simpl; tauto.
  - apply (bool_decide_unpack _). vm_compute. exact I.
  - reflexivity.
Qed.

